(** * Hashagile: the Solr admin script and its [SolrClient] refactor

    A shallow embedding of [app.py] (the baseline script) and of
    [optimized/app.py] (the [SolrClient] class and its driver).

    Both files are sequences of calls into three outside parties: the HTTP
    client [requests], the Solr client [pysolr] and the file system.  The
    embedding keeps the Python code as monadic programs over

    - an outside world of an arbitrary state type [S], reached only through
      the oracles of an environment record [Env S] (one oracle per outside
      call the source makes), so that a statement quantified over [Env] and
      its state speaks of every server and file-system behaviour;
    - Python exceptions, as the [Raise] alternative of a result;
    - the trace of the outside calls a program issued, in order.

    [print] and [logger] calls write text and neither raise nor change a
    returned value; they are left out, except for the attribute reads inside
    their f-strings, which can raise and are kept. *)

From Stdlib Require Import String Ascii List ZArith Bool Lia.
From Stdlib Require Import DecimalString.
Import ListNotations.

Set Warnings "-register-all".

Local Open Scope string_scope.
Local Open Scope Z_scope.

(** ** Python strings *)

(** A Python [str] is held as the bytes of its UTF-8 encoding.
    Concatenation, the split at commas and the substring test give on the
    encodings the encoding of what they give on the strings; upper-casing
    does not work byte by byte, and is an oracle of the environment
    ([str_upper] below). *)

(** The double quote character, as a one-character string. *)
Definition dquote : string := String (ascii_of_nat 34) EmptyString.

(** The single quote character, used by [repr] of a key in [str(KeyError)]. *)
Definition squote : string := String (ascii_of_nat 39) EmptyString.

(** [needle in hay] on two Python strings: a substring test. *)
Fixpoint contains (needle hay : string) : bool :=
  String.prefix needle hay ||
  match hay with
  | EmptyString => false
  | String _ rest => contains needle rest
  end.

(** [s.split(',')]: the fields between commas, at least one. *)
Fixpoint split_go (cur : string) (s : string) : list string :=
  match s with
  | EmptyString => [cur]
  | String c rest =>
      if Ascii.eqb c ","%char then cur :: split_go EmptyString rest
      else split_go (cur ++ String c EmptyString) rest
  end.

Definition split_comma (s : string) : list string := split_go EmptyString s.

(** [str(n)] for an integer. *)
Definition str_of_Z (n : Z) : string := NilZero.string_of_int (Z.to_int n).

(** ** Decoded JSON values

    What [response.json()] returns and what pysolr stores in
    [results.facets].  Numbers are integers: no operation of the two files
    computes with a number. *)

Inductive json : Type :=
| JNull
| JBool (b : bool)
| JInt (n : Z)
| JStr (s : string)
| JArr (items : list json)
| JObj (fields : list (string * json)).

Fixpoint lookup {A : Type} (k : string) (m : list (string * A)) : option A :=
  match m with
  | [] => None
  | (k', v) :: rest => if String.eqb k k' then Some v else lookup k rest
  end.

Definition keys {K A : Type} (m : list (K * A)) : list K := map fst m.

Definition has_key {A : Type} (k : string) (m : list (string * A)) : bool :=
  existsb (String.eqb k) (keys m).

(** ** Responses and exceptions *)

(** What [response.json()] does: a decoded value, or a decoding failure.
    requests 2.27 and later raise [requests.exceptions.JSONDecodeError], a
    [RequestException]; earlier versions raise a plain [ValueError]. *)
Inductive json_outcome : Type :=
| JsonOk (j : json)
| JsonInvalid (as_request_exception : bool) (msg : string).

Record response : Type := mkResponse {
  status_code : Z;
  reason : string;
  url : string;
  text : string;
  json_body : json_outcome
}.

(** Python exceptions, by what the [except] clauses of the two files tell
    apart.  [RequestException] stands for the class and every subclass of it;
    its constructor in requests always sets the attribute [response], to
    [None] unless a response was received (as for the [HTTPError] of
    [raise_for_status]).  [OtherException] is every other subclass of
    [Exception], by class name. *)
Inductive exn : Type :=
| RequestException (msg : string) (resp : option response)
| FileNotFoundError (msg : string)
| OtherException (cls : string) (msg : string).

(** [str(e)]. *)
Definition str (e : exn) : string :=
  match e with
  | RequestException msg _ => msg
  | FileNotFoundError msg => msg
  | OtherException _ msg => msg
  end.

Definition is_RequestException (e : exn) : bool :=
  match e with RequestException _ _ => true | _ => false end.

Definition is_FileNotFoundError (e : exn) : bool :=
  match e with FileNotFoundError _ => true | _ => false end.

(** [hasattr(e, 'response')]. *)
Definition hasattr_response (e : exn) : bool := is_RequestException e.

(** [e.response], where the attribute exists. *)
Definition exn_response (e : exn) : option response :=
  match e with RequestException _ r => r | _ => None end.

Definition KeyError (k : string) : exn :=
  OtherException "KeyError" (squote ++ k ++ squote).
Definition TypeError (msg : string) : exn := OtherException "TypeError" msg.
Definition AttributeError (msg : string) : exn :=
  OtherException "AttributeError" msg.
Definition ValueError (msg : string) : exn := OtherException "ValueError" msg.

(** The class name Python uses in its messages. *)
Definition type_name (j : json) : string :=
  match j with
  | JNull => "NoneType"
  | JBool _ => "bool"
  | JInt _ => "int"
  | JStr _ => "str"
  | JArr _ => "list"
  | JObj _ => "dict"
  end.

(** ** Documents, search results, files *)

(** A cell of a [csv.DictReader] row: a field, [None] (the [restval] of a
    short row) or the list of surplus fields (under the [restkey] of a long
    row). *)
Inductive cell : Type :=
| CStr (s : string)
| CNone
| CRest (fields : list string).

(** A row as [csv.DictReader] yields it: an insertion-ordered dict whose keys
    are header names, or [None] (the default [restkey]). *)
Definition doc : Type := list (option string * cell).

(** What [open] and the iteration over the reader deliver: the rows, as
    [csv.reader] splits them, and the exception that ends the iteration
    early, if one does (a decoding error, a [csv.Error]). *)
Record file_data : Type := mkFile {
  fd_rows : list (list string);
  fd_error : option exn
}.

(** A [pysolr.Results]. *)
Record results : Type := mkResults {
  res_docs : list json;
  res_hits : Z;
  res_facets : json
}.

(** ** The outside world *)

Inductive event : Type :=
| EvGet (u : string) (params : list (string * string))
| EvOpen (path : string)
| EvClose (path : string)
| EvAdd (solr : string) (docs : list doc)
| EvSearch (solr : string) (q : string) (kwargs : list (string * string))
| EvDelete (solr : string) (id : string).

(** One oracle per outside call of the source.  An oracle takes the state of
    the world and gives the next state with what the call returned or
    raised.  The two last fields are not oracles of the world but of the
    process and the interpreter: [getenv] is the environment of the run,
    and [str_upper] is [str.upper], the upper-casing of the interpreter's
    Unicode tables, which the files use and do not define. *)
Record Env (S : Type) : Type := mkEnv {
  requests_get : string -> list (string * string) -> S -> S * (exn + response);
  open_file : string -> S -> S * (exn + file_data);
  solr_add : string -> list doc -> S -> S * option exn;
  solr_search :
    string -> string -> list (string * string) -> S -> S * (exn + results);
  solr_delete : string -> string -> S -> S * option exn;
  getenv : string -> option string;
  str_upper : string -> string
}.

Arguments requests_get {S}.
Arguments open_file {S}.
Arguments solr_add {S}.
Arguments solr_search {S}.
Arguments solr_delete {S}.
Arguments getenv {S}.
Arguments str_upper {S}.

(** ** Programs: state, trace and exceptions *)

Inductive result (A : Type) : Type :=
| Return (a : A)
| Raise (e : exn).

Arguments Return {A}.
Arguments Raise {A}.

Record outcome (S A : Type) : Type := mkOutcome {
  final : S;
  trace : list event;
  value : result A
}.

Arguments mkOutcome {S A}.
Arguments final {S A}.
Arguments trace {S A}.
Arguments value {S A}.

Definition M (S A : Type) : Type := S -> outcome S A.

Definition ret {S A} (a : A) : M S A := fun s => mkOutcome s [] (Return a).

Definition raise {S A} (e : exn) : M S A := fun s => mkOutcome s [] (Raise e).

Definition bind {S A B} (m : M S A) (f : A -> M S B) : M S B :=
  fun s =>
    let o := m s in
    match value o with
    | Return a =>
        let o' := f a (final o) in
        mkOutcome (final o') (trace o ++ trace o') (value o')
    | Raise e => mkOutcome (final o) (trace o) (Raise e)
    end.

(** [try: body except <classes>: handler]: [handler e] is [Some h] when an
    [except] clause matches [e], and [h] is that clause's block. *)
Definition try_except {S A} (body : M S A) (handler : exn -> option (M S A))
  : M S A :=
  fun s =>
    let o := body s in
    match value o with
    | Return a => o
    | Raise e =>
        match handler e with
        | Some h =>
            let o' := h (final o) in
            mkOutcome (final o') (trace o ++ trace o') (value o')
        | None => o
        end
    end.

(** An outside call: the oracle's answer, after the event is recorded. *)
Definition call {S A} (ev : event) (oracle : S -> S * (exn + A)) : M S A :=
  fun s =>
    let '(s', r) := oracle s in
    mkOutcome s' [ev] match r with inl e => Raise e | inr a => Return a end.

Definition call_unit {S} (ev : event) (oracle : S -> S * option exn)
  : M S unit :=
  fun s =>
    let '(s', r) := oracle s in
    mkOutcome s' [ev] match r with Some e => Raise e | None => Return tt end.

Definition emit {S} (ev : event) : M S unit :=
  fun s => mkOutcome s [ev] (Return tt).

Declare Scope py_scope.
Delimit Scope py_scope with py.
Notation "x <- m ;; k" := (bind m (fun x => k))
  (at level 100, m at next level, right associativity) : py_scope.
Notation "m ;;; k" := (bind m (fun _ => k))
  (at level 100, right associativity) : py_scope.
Local Open Scope py_scope.

(** [for x in xs: body x]. *)
Fixpoint for_each {S A} (xs : list A) (body : A -> M S unit) : M S unit :=
  match xs with
  | [] => ret tt
  | x :: rest => body x ;;; for_each rest body
  end.

Definition lift {S A} (r : result A) : M S A := fun s => mkOutcome s [] r.

(** ** The Python and library operations the two files use *)

(** [j[k]] for a string [k]. *)
Definition subscript (j : json) (k : string) : result json :=
  match j with
  | JObj m =>
      match lookup k m with
      | Some v => Return v
      | None => Raise (KeyError k)
      end
  | JArr _ => Raise (TypeError "list indices must be integers or slices, not str")
  | JStr _ => Raise (TypeError "string indices must be integers, not 'str'")
  | _ => Raise (TypeError (squote ++ type_name j ++ "' object is not subscriptable"))
  end.

(** [k in j] for a string [k]: a key of a dict, an element of a list, a
    substring of a string. *)
Definition py_in (k : string) (j : json) : result bool :=
  match j with
  | JObj m => Return (has_key k m)
  | JArr l =>
      Return (existsb (fun x => match x with JStr s => String.eqb s k | _ => false end) l)
  | JStr s => Return (contains k s)
  | _ => Raise (TypeError ("argument of type '" ++ type_name j ++ "' is not iterable"))
  end.

(** [list(j.keys())]. *)
Definition dict_keys (j : json) : result (list string) :=
  match j with
  | JObj m => Return (keys m)
  | _ => Raise (AttributeError (squote ++ type_name j ++ "' object has no attribute 'keys'"))
  end.

(** [response.raise_for_status()]: an [HTTPError] carrying the response for
    a status from 400 to 599. *)
Definition raise_for_status (r : response) : result unit :=
  if (400 <=? status_code r) && (status_code r <? 500) then
    Raise (RequestException
             (str_of_Z (status_code r) ++ " Client Error: " ++ reason r
                ++ " for url: " ++ url r) (Some r))
  else if (500 <=? status_code r) && (status_code r <? 600) then
    Raise (RequestException
             (str_of_Z (status_code r) ++ " Server Error: " ++ reason r
                ++ " for url: " ++ url r) (Some r))
  else Return tt.

(** [response.json()]. *)
Definition response_json (r : response) : result json :=
  match json_body r with
  | JsonOk j => Return j
  | JsonInvalid true msg => Raise (RequestException msg None)
  | JsonInvalid false msg => Raise (ValueError msg)
  end.

(** The two prints of every [except RequestException as e] block:
    [if hasattr(e, 'response')] guards the reads of
    [e.response.status_code] and [e.response.text]. *)
Definition report_response {S} (e : exn) : M S unit :=
  if hasattr_response e then
    match exn_response e with
    | Some _ => ret tt
    | None =>
        raise (AttributeError "'NoneType' object has no attribute 'status_code'")
    end
  else ret tt.

(** [d[k] = v] on an insertion-ordered dict. *)
Fixpoint dict_set {K V : Type} (eqb : K -> K -> bool) (k : K) (v : V)
  (d : list (K * V)) : list (K * V) :=
  match d with
  | [] => [(k, v)]
  | (k', v') :: rest =>
      if eqb k' k then (k', v) :: rest else (k', v') :: dict_set eqb k v rest
  end.

(** [dict(pairs)]. *)
Definition dict_of {K V : Type} (eqb : K -> K -> bool) (pairs : list (K * V))
  : list (K * V) :=
  fold_left (fun d kv => dict_set eqb (fst kv) (snd kv) d) pairs [].

Definition okey_eqb (a b : option string) : bool :=
  match a, b with
  | Some x, Some y => String.eqb x y
  | None, None => true
  | _, _ => false
  end.

(** One step of [csv.DictReader.__next__] on a row that is not blank. *)
Definition row_dict (fieldnames row : list string) : doc :=
  let d := dict_of okey_eqb
             (combine (map Some fieldnames) (map CStr row)) in
  let lf := length fieldnames in
  let lr := length row in
  if (lf <? lr)%nat then dict_set okey_eqb None (CRest (skipn lf row)) d
  else
    fold_left (fun d key => dict_set okey_eqb (Some key) CNone d)
      (skipn lr fieldnames) d.

Definition is_blank (row : list string) : bool :=
  match row with [] => true | _ => false end.

(** [list(csv.DictReader(file))]: the first row names the fields, blank rows
    after it are skipped. *)
Definition dict_reader (rows : list (list string)) : list doc :=
  match rows with
  | [] => []
  | fieldnames :: data =>
      map (row_dict fieldnames) (filter (fun r => negb (is_blank r)) data)
  end.

(** [{k: v for k, v in row.items() if k != exclude_column}]. *)
Definition drop_column (exclude_column : string) (row : doc) : doc :=
  filter (fun kv => negb (okey_eqb (fst kv) (Some exclude_column))) row.

(** The documents the loop over the reader builds from a file. *)
Definition csv_documents (exclude_column : string) (rows : list (list string))
  : list doc :=
  map (drop_column exclude_column) (dict_reader rows).

Definition read_documents {S} (exclude_column : string) (file : file_data)
  : M S (list doc) :=
  match fd_error file with
  | None => ret (csv_documents exclude_column (fd_rows file))
  | Some e => raise e
  end.

(** [with open(path, 'r') as file: body file].  [EvOpen] records that the
    file was opened; the file is closed when the block is left, by its end
    or by an exception. *)
Definition with_open {S A} (E : Env S) (path : string)
  (body : file_data -> M S A) : M S A :=
  fun s =>
    let '(s1, r) := open_file E path s in
    match r with
    | inl e => mkOutcome s1 [] (Raise e)
    | inr file =>
        let o := body file s1 in
        mkOutcome (final o) (EvOpen path :: trace o ++ [EvClose path]) (value o)
    end.

(** [l[::2]] and [l[1::2]]. *)
Fixpoint evens {A : Type} (l : list A) : list A :=
  match l with
  | [] => []
  | [x] => [x]
  | x :: _ :: rest => x :: evens rest
  end.

Definition odds {A : Type} (l : list A) : list A := evens (tl l).

Fixpoint chars (s : string) : list json :=
  match s with
  | EmptyString => []
  | String c rest => JStr (String c EmptyString) :: chars rest
  end.

(** Equality of two hashable keys: [True == 1] and [False == 0]. *)
Definition key_num (j : json) : option Z :=
  match j with
  | JBool b => Some (if b then 1 else 0)
  | JInt n => Some n
  | _ => None
  end.

Definition key_eqb (a b : json) : bool :=
  match a, b with
  | JNull, JNull => true
  | JStr s, JStr t => String.eqb s t
  | _, _ =>
      match key_num a, key_num b with
      | Some x, Some y => x =? y
      | _, _ => false
      end
  end.

Definition hashable (j : json) : bool :=
  match j with JArr _ | JObj _ => false | _ => true end.

(** [dict(zip(ks, vs))] over decoded values: a list or a dict as a key
    raises. *)
Fixpoint dict_zip (pairs : list (json * json)) (d : list (json * json))
  : result (list (json * json)) :=
  match pairs with
  | [] => Return d
  | (k, v) :: rest =>
      if hashable k then dict_zip rest (dict_set key_eqb k v d)
      else Raise (TypeError ("unhashable type: '" ++ type_name k ++ squote))
  end.

(** [facet_counts = results.facets['facet_fields']['Department']] and
    [dict(zip(facet_counts[::2], facet_counts[1::2]))]. *)
Definition department_facet (facets : json) : result (list (json * json)) :=
  match subscript facets "facet_fields" with
  | Raise e => Raise e
  | Return fields =>
      match subscript fields "Department" with
      | Raise e => Raise e
      | Return facet_counts =>
          match facet_counts with
          | JArr l => dict_zip (combine (evens l) (odds l)) []
          | JStr s => dict_zip (combine (evens (chars s)) (odds (chars s))) []
          | JObj _ => Raise (TypeError "unhashable type: 'slice'")
          | _ =>
              Raise (TypeError (squote ++ type_name facet_counts
                                  ++ "' object is not subscriptable"))
          end
      end
  end.

(** What the operations with a [Union] return type give back. *)
Inductive pyval : Type :=
| VInt (n : Z)
| VStr (s : string)
| VDocs (docs : list json)
| VDict (d : list (json * json)).

Definition except_RequestException {S A} (h : exn -> M S A) (e : exn)
  : option (M S A) :=
  if is_RequestException e then Some (h e) else None.

Definition except_FileNotFoundError {S A} (h : M S A) (e : exn)
  : option (M S A) :=
  if is_FileNotFoundError e then Some h else None.

(** [except Exception as e]: every exception of the model. *)
Definition except_Exception {S A} (h : exn -> M S A) (e : exn)
  : option (M S A) := Some (h e).

(** [pysolr.Solr(f'{base}/{core_name}/', always_commit=True)]: the handle is
    its URL; the constructor issues no request. *)
Definition Solr (base core_name : string) : string :=
  base ++ "/" ++ core_name ++ "/".

Definition create_params (core_name : string) : list (string * string) :=
  [("action", "CREATE"); ("name", core_name); ("instanceDir", core_name);
   ("configSet", "_default")].

(** ** [app.py] *)

Module Baseline.

Definition SOLR_URL : string := "http://localhost:8983/solr".

Section Operations.
Context {S : Type} (E : Env S).

Definition check_solr_connection : M S bool :=
  try_except
    (let u := SOLR_URL ++ "/admin/cores?action=STATUS&wt=json" in
     response <- call (EvGet u []) (requests_get E u []) ;;
     lift (raise_for_status response) ;;;
     ret true)
    (except_RequestException (fun e => report_response e ;;; ret false)).

Definition check_core_exists (core_name : string) : M S bool :=
  try_except
    (let u := SOLR_URL ++ "/admin/cores?action=STATUS&core=" ++ core_name
                ++ "&wt=json" in
     response <- call (EvGet u []) (requests_get E u []) ;;
     lift (raise_for_status response) ;;;
     body <- lift (response_json response) ;;
     cores <- lift (subscript body "status") ;;
     exists_ <- lift (py_in core_name cores) ;;
     (if negb exists_ then lift (dict_keys cores) ;;; ret tt else ret tt) ;;;
     ret exists_)
    (except_RequestException (fun e => report_response e ;;; ret false)).

Definition createCore (core_name : string) : M S string :=
  exists_ <- check_core_exists core_name ;;
  if exists_ then ret ("Core " ++ core_name ++ " already exists.")
  else
    let params := create_params core_name in
    try_except
      (let u := SOLR_URL ++ "/admin/cores" in
       response <- call (EvGet u params) (requests_get E u params) ;;
       lift (raise_for_status response) ;;;
       body <- lift (response_json response) ;;
       success <- lift (py_in "success" body) ;;
       if success then ret ("Core " ++ core_name ++ " created successfully.")
       else ret ("Failed to create core " ++ core_name ++ ". Response: "
                   ++ text response))
      (except_RequestException (fun e =>
         report_response e ;;;
         ret ("Failed to create core " ++ core_name ++ ". Error: " ++ str e))).

Definition indexData (core_name exclude_column : string) : M S string :=
  try_except
    (let solr := Solr SOLR_URL core_name in
     with_open E "employee_data.csv" (fun file =>
       documents <- read_documents exclude_column file ;;
       call_unit (EvAdd solr documents) (solr_add E solr documents)) ;;;
     ret ("Data indexed into " ++ core_name ++ ", excluding column "
            ++ exclude_column))
    (except_FileNotFoundError
       (ret "Failed to index data: CSV file not found")).

Definition searchByColumn (core_name column_name column_value : string)
  : M S pyval :=
  try_except
    (let solr := Solr SOLR_URL core_name in
     let query := column_name ++ ":" ++ dquote ++ column_value ++ dquote in
     results <- call (EvSearch solr query []) (solr_search E solr query []) ;;
     ret (VDocs (res_docs results)))
    (except_Exception (fun e => ret (VStr ("Failed to search: " ++ str e)))).

Definition getEmpCount (core_name : string) : M S pyval :=
  try_except
    (let solr := Solr SOLR_URL core_name in
     let kwargs := [("rows", "0")] in
     results <- call (EvSearch solr "*:*" kwargs)
                  (solr_search E solr "*:*" kwargs) ;;
     ret (VInt (res_hits results)))
    (except_Exception (fun e =>
       ret (VStr ("Failed to get employee count: " ++ str e)))).

Definition delEmpById (core_name employee_id : string) : M S string :=
  try_except
    (let solr := Solr SOLR_URL core_name in
     call_unit (EvDelete solr employee_id) (solr_delete E solr employee_id) ;;;
     ret ("Employee with ID " ++ employee_id ++ " deleted from " ++ core_name))
    (except_Exception (fun e =>
       ret ("Failed to delete employee: " ++ str e))).

Definition getDepFacet (core_name : string) : M S pyval :=
  try_except
    (let solr := Solr SOLR_URL core_name in
     let kwargs := [("facet", "on"); ("facet_field", "Department")] in
     results <- call (EvSearch solr "*:*" kwargs)
                  (solr_search E solr "*:*" kwargs) ;;
     d <- lift (department_facet (res_facets results)) ;;
     ret (VDict d))
    (except_Exception (fun e =>
       ret (VStr ("Failed to get department facet: " ++ str e)))).

Definition v_nameCore : string := "Hash_YourName".
Definition v_phoneCore : string := "Hash_1234".

(** [main]: every result is printed, and a result that is a string holding
    [Failed] gets one more printed line; neither changes what runs next. *)
Definition main : M S unit :=
  connected <- check_solr_connection ;;
  if negb connected then ret tt
  else
    createCore v_nameCore ;;;
    createCore v_phoneCore ;;;
    getEmpCount v_nameCore ;;;
    indexData v_nameCore "Department" ;;;
    indexData v_phoneCore "Gender" ;;;
    delEmpById v_nameCore "E02003" ;;;
    getEmpCount v_nameCore ;;;
    searchByColumn v_nameCore "Department" "IT" ;;;
    searchByColumn v_nameCore "Gender" "Male" ;;;
    searchByColumn v_phoneCore "Department" "IT" ;;;
    getDepFacet v_nameCore ;;;
    getDepFacet v_phoneCore ;;;
    ret tt.

End Operations.
End Baseline.

(** ** [optimized/app.py] *)

Module Optimized.

Record SolrClient : Type := mkClient { base_url : string }.

(** [os.getenv(key, default)]. *)
Definition getenv_default {S} (E : Env S) (key default : string) : string :=
  match getenv E key with
  | Some v => v
  | None => default
  end.

Section Operations.
Context {S : Type} (E : Env S) (self : SolrClient).

Definition check_connection : M S bool :=
  try_except
    (let u := base_url self ++ "/admin/cores?action=STATUS&wt=json" in
     response <- call (EvGet u []) (requests_get E u []) ;;
     lift (raise_for_status response) ;;;
     ret true)
    (except_RequestException (fun e => report_response e ;;; ret false)).

Definition check_core_exists (core_name : string) : M S bool :=
  try_except
    (let u := base_url self ++ "/admin/cores?action=STATUS&core=" ++ core_name
                ++ "&wt=json" in
     response <- call (EvGet u []) (requests_get E u []) ;;
     lift (raise_for_status response) ;;;
     body <- lift (response_json response) ;;
     cores <- lift (subscript body "status") ;;
     exists_ <- lift (py_in core_name cores) ;;
     (if negb exists_ then lift (dict_keys cores) ;;; ret tt else ret tt) ;;;
     ret exists_)
    (except_RequestException (fun e => report_response e ;;; ret false)).

Definition create_core (core_name : string) : M S string :=
  exists_ <- check_core_exists core_name ;;
  if exists_ then ret ("Core " ++ core_name ++ " already exists.")
  else
    let params := create_params core_name in
    try_except
      (let u := base_url self ++ "/admin/cores" in
       response <- call (EvGet u params) (requests_get E u params) ;;
       lift (raise_for_status response) ;;;
       body <- lift (response_json response) ;;
       success <- lift (py_in "success" body) ;;
       if success then ret ("Core " ++ core_name ++ " created successfully.")
       else ret ("Failed to create core " ++ core_name ++ ". Response: "
                   ++ text response))
      (except_RequestException (fun e =>
         report_response e ;;;
         ret ("Failed to create core " ++ core_name ++ ". Error: " ++ str e))).

Definition index_data (core_name exclude_column csv_file : string)
  : M S string :=
  try_except
    (let solr := Solr (base_url self) core_name in
     documents <- with_open E csv_file (read_documents exclude_column) ;;
     call_unit (EvAdd solr documents) (solr_add E solr documents) ;;;
     ret ("Data indexed into " ++ core_name ++ ", excluding column "
            ++ exclude_column))
    (fun e =>
       if is_FileNotFoundError e then
         Some (ret ("Failed to index data: CSV file " ++ csv_file
                      ++ " not found"))
       else Some (ret ("Failed to index data: " ++ str e))).

Definition search_by_column (core_name column_name column_value : string)
  : M S pyval :=
  try_except
    (let solr := Solr (base_url self) core_name in
     let query := column_name ++ ":" ++ dquote ++ column_value ++ dquote in
     results <- call (EvSearch solr query []) (solr_search E solr query []) ;;
     ret (VDocs (res_docs results)))
    (except_Exception (fun e => ret (VDocs []))).

Definition get_employee_count (core_name : string) : M S pyval :=
  try_except
    (let solr := Solr (base_url self) core_name in
     let kwargs := [("rows", "0")] in
     results <- call (EvSearch solr "*:*" kwargs)
                  (solr_search E solr "*:*" kwargs) ;;
     ret (VInt (res_hits results)))
    (except_Exception (fun e =>
       ret (VStr ("Failed to get employee count: " ++ str e)))).

Definition delete_employee_by_id (core_name employee_id : string)
  : M S string :=
  try_except
    (let solr := Solr (base_url self) core_name in
     call_unit (EvDelete solr employee_id) (solr_delete E solr employee_id) ;;;
     ret ("Employee with ID " ++ employee_id ++ " deleted from " ++ core_name))
    (except_Exception (fun e =>
       ret ("Failed to delete employee: " ++ str e))).

Definition get_department_facet (core_name : string) : M S pyval :=
  try_except
    (let solr := Solr (base_url self) core_name in
     let kwargs := [("facet", "on"); ("facet_field", "Department")] in
     results <- call (EvSearch solr "*:*" kwargs)
                  (solr_search E solr "*:*" kwargs) ;;
     d <- lift (department_facet (res_facets results)) ;;
     ret (VDict d))
    (except_Exception (fun e => ret (VDict []))).

Definition setup_cores (core_names : list string) : M S unit :=
  for_each core_names (fun core_name => create_core core_name ;;; ret tt).

Definition index_data_to_cores (core_configs : list (string * string))
  (csv_file : string) : M S unit :=
  for_each core_configs (fun '(core_name, exclude_column) =>
    index_data core_name exclude_column csv_file ;;; ret tt).

Definition perform_operations (core_name : string) : M S unit :=
  delete_employee_by_id core_name
    (getenv_default E "EMPLOYEE_ID_TO_DELETE" "E02003") ;;;
  get_employee_count core_name ;;;
  let search_department := getenv_default E "SEARCH_DEPARTMENT" "IT" in
  search_by_column core_name "Department" search_department ;;;
  get_department_facet core_name ;;;
  ret tt.

End Operations.

(** The dict comprehension of [main]: one entry per distinct core name, in
    the order of first occurrence. *)
Definition core_configs {S} (E : Env S) (core_names : list string)
  : list (string * string) :=
  dict_of String.eqb
    (map (fun core_name =>
            (core_name,
             getenv_default E (str_upper E core_name ++ "_EXCLUDE_COLUMN")
               "Department"))
       core_names).

Definition main {S} (E : Env S) : M S unit :=
  let client :=
    mkClient (getenv_default E "SOLR_URL" "http://localhost:8983/solr") in
  connected <- check_connection E client ;;
  if negb connected then ret tt
  else
    let core_names :=
      split_comma (getenv_default E "CORE_NAMES" "Hash_YourName,Hash_1234") in
    setup_cores E client core_names ;;;
    let csv_file := getenv_default E "CSV_FILE" "employee_data.csv" in
    index_data_to_cores E client (core_configs E core_names) csv_file ;;;
    for_each core_names (perform_operations E client).

End Optimized.

(** ** Sample worlds

    Concrete environments, used to run the programs: a Solr that keeps the
    list of its cores and answers the admin requests the way the two files
    read them, and variants of it that fail at one outside call. *)

Module Sample.

(** The upper-casing of the sample interpreters: the ASCII letters a to z
    are mapped to A to Z and every other byte is left as it is, which is
    what [str.upper] does on a string of ASCII characters.  The sample runs
    upper-case the two ASCII sample core names only. *)
Definition upper_ascii (c : ascii) : ascii :=
  let n := nat_of_ascii c in
  if (97 <=? n)%nat && (n <=? 122)%nat then ascii_of_nat (n - 32) else c.

Fixpoint ascii_upper (s : string) : string :=
  match s with
  | EmptyString => EmptyString
  | String c rest => String (upper_ascii c) (ascii_upper rest)
  end.

Definition ok_response (u : string) (j : json) : response :=
  mkResponse 200 "OK" u "{...}" (JsonOk j).

Definition status_body (cores : list string) : json :=
  JObj [("responseHeader", JObj [("status", JInt 0)]);
        ("status", JObj (map (fun c => (c, JObj [])) cores))].

Definition create_body (core_name : string) : json :=
  JObj [("responseHeader", JObj [("status", JInt 0)]);
        ("success", JObj []); ("core", JStr core_name)].

(** A GET with [action=CREATE] among its parameters adds the named core; any
    other GET is a status request and lists the cores. *)
Definition admin (u : string) (params : list (string * string))
  (cores : list string) : list string * (exn + response) :=
  match lookup "name" params with
  | Some core_name =>
      (core_name :: cores, inr (ok_response u (create_body core_name)))
  | None => (cores, inr (ok_response u (status_body cores)))
  end.

Definition employees : list (list string) :=
  [["Employee ID"; "Full Name"; "Department"; "Gender"];
   ["E02002"; "Kai Le"; "Engineering"; "Male"];
   ["E02003"; "Robert Patel"; "Sales"; "Male"]].

Definition files (rows : list (list string)) (path : string)
  (cores : list string) : list string * (exn + file_data) :=
  if String.eqb path "employee_data.csv" then (cores, inr (mkFile rows None))
  else (cores, inl (FileNotFoundError
                      ("[Errno 2] No such file or directory: '" ++ path ++ "'"))).

Definition no_file (path : string) (cores : list string)
  : list string * (exn + file_data) :=
  (cores, inl (FileNotFoundError
                 ("[Errno 2] No such file or directory: '" ++ path ++ "'"))).

Definition found : results :=
  mkResults [JObj [("id", JStr "E02002")]] 1
    (JObj [("facet_fields",
            JObj [("Department", JArr [JStr "Engineering"; JInt 1])])]).

Definition SolrError (msg : string) : exn := OtherException "SolrError" msg.

Definition rejected : exn :=
  SolrError "Solr responded with an error (HTTP 400): [Reason: unknown field]".

Definition refused : exn :=
  RequestException "HTTPConnectionPool(host='localhost', port=8983): Max retries exceeded"
    None.

(** The cooperative server, with the given rows in [employee_data.csv]. *)
Definition server (rows : list (list string)) : Env (list string) :=
  mkEnv (list string) admin (files rows)
    (fun _ _ cores => (cores, None))
    (fun _ _ _ cores => (cores, inr found))
    (fun _ _ cores => (cores, None))
    (fun _ => None) ascii_upper.

(** The same server, rejecting every batch of documents. *)
Definition rejecting : Env (list string) :=
  mkEnv (list string) admin (files employees)
    (fun _ _ cores => (cores, Some rejected))
    (fun _ _ _ cores => (cores, inr found))
    (fun _ _ cores => (cores, None))
    (fun _ => None) ascii_upper.

(** The same server, failing every search. *)
Definition unsearchable : Env (list string) :=
  mkEnv (list string) admin (files employees)
    (fun _ _ cores => (cores, None))
    (fun _ _ _ cores => (cores, inl (SolrError "Solr responded with an error (HTTP 404)")))
    (fun _ _ cores => (cores, None))
    (fun _ => None) ascii_upper.

(** The same server, without the CSV file. *)
Definition fileless : Env (list string) :=
  mkEnv (list string) admin no_file
    (fun _ _ cores => (cores, None))
    (fun _ _ _ cores => (cores, inr found))
    (fun _ _ cores => (cores, None))
    (fun _ => None) ascii_upper.

(** No server: every GET fails in the transport, so the exception carries no
    response. *)
Definition unreachable : Env (list string) :=
  mkEnv (list string)
    (fun _ _ cores => (cores, inl refused))
    (files employees)
    (fun _ _ cores => (cores, Some rejected))
    (fun _ _ _ cores => (cores, inl (SolrError "Failed to connect to server")))
    (fun _ _ cores => (cores, Some (SolrError "Failed to connect to server")))
    (fun _ => None) ascii_upper.

(** A server (or a proxy before it) that answers every GET with status 200
    and a JSON object that has no [status] entry. *)
Definition keyless : Env (list string) :=
  mkEnv (list string)
    (fun u _ cores =>
       (cores, inr (ok_response u (JObj [("responseHeader", JObj [])]))))
    (files employees)
    (fun _ _ cores => (cores, None))
    (fun _ _ _ cores => (cores, inr found))
    (fun _ _ cores => (cores, None))
    (fun _ => None) ascii_upper.

(** A CSV file with a row of four fields and a blank line under a header
    of three columns, and one with rows no longer than the header. *)
Definition ragged : list (list string) :=
  [["A"; "B"; "C"]; ["1"; "2"; "3"; "4"]; []].

Definition regular : list (list string) :=
  [["A"; "B"; "C"]; ["1"; "2"; "3"]; []; ["4"; "5"]].

(** A server that answers every GET with an error status. *)
Definition unavailable_response (u : string) : response :=
  mkResponse 503 "Service Unavailable" u "<html>...</html>"
    (JsonInvalid true "Expecting value: line 1 column 1 (char 0)").

Definition erroring : Env (list string) :=
  mkEnv (list string)
    (fun u _ cores => (cores, inr (unavailable_response u)))
    (files employees)
    (fun _ _ cores => (cores, None))
    (fun _ _ _ cores => (cores, inr found))
    (fun _ _ cores => (cores, None))
    (fun _ => None) ascii_upper.

(** A server whose search answers carry no facet counts: pysolr then leaves
    [results.facets] an empty dict. *)
Definition facetless : Env (list string) :=
  mkEnv (list string) admin (files employees)
    (fun _ _ cores => (cores, None))
    (fun _ _ _ cores => (cores, inr (mkResults [] 0 (JObj []))))
    (fun _ _ cores => (cores, None))
    (fun _ => None) ascii_upper.

(** A server that creates the core and answers the CREATE request the way
    Solr's core admin does, naming the core, without a [success] entry. *)
Definition terse_admin (u : string) (params : list (string * string))
  (cores : list string) : list string * (exn + response) :=
  match lookup "name" params with
  | Some core_name =>
      (core_name :: cores,
       inr (mkResponse 200 "OK" u "{core}"
              (JsonOk (JObj [("responseHeader", JObj [("status", JInt 0)]);
                             ("core", JStr core_name)]))))
  | None => (cores, inr (ok_response u (status_body cores)))
  end.

Definition terse : Env (list string) :=
  mkEnv (list string) terse_admin (files employees)
    (fun _ _ cores => (cores, None))
    (fun _ _ _ cores => (cores, inr found))
    (fun _ _ cores => (cores, None))
    (fun _ => None) ascii_upper.

Definition both_cores : list string := ["Hash_YourName"; "Hash_1234"].

End Sample.

(** The exit status of the interpreter after [main()]: 0 when it returns, 1
    when an exception leaves it. *)
Definition exit_status {A} (r : result A) : Z :=
  match r with
  | Return _ => 0
  | Raise _ => 1
  end.

Definition is_add (ev : event) : bool :=
  match ev with EvAdd _ _ => true | _ => false end.

Definition is_delete (ev : event) : bool :=
  match ev with EvDelete _ _ => true | _ => false end.

Definition is_search (ev : event) : bool :=
  match ev with EvSearch _ _ _ => true | _ => false end.

(** A GET that carries [action=CREATE]. *)
Definition is_create (ev : event) : bool :=
  match ev with
  | EvGet _ params =>
      match lookup "action" params with
      | Some a => String.eqb a "CREATE"
      | None => false
      end
  | _ => false
  end.

(** Whether an [EvAdd] stands in a trace at a point where a file is open
    ([inside = true]) or where none is ([inside = false]); [opened] is the
    state of the file before the trace. *)
Fixpoint adds_where (inside opened : bool) (tr : list event) : bool :=
  match tr with
  | [] => false
  | EvOpen _ :: rest => adds_where inside true rest
  | EvClose _ :: rest => adds_where inside false rest
  | EvAdd _ _ :: rest => Bool.eqb inside opened || adds_where inside opened rest
  | _ :: rest => adds_where inside opened rest
  end.

(** Whether the file is open after a trace. *)
Fixpoint open_after (opened : bool) (tr : list event) : bool :=
  match tr with
  | [] => opened
  | EvOpen _ :: rest => open_after true rest
  | EvClose _ :: rest => open_after false rest
  | _ :: rest => open_after opened rest
  end.

(** What the refactor gives back where the baseline gives a failure
    string. *)
Definition or_empty (empty : pyval) (r : result pyval) : result pyval :=
  match r with
  | Return (VStr _) => Return empty
  | _ => r
  end.

Definition status_url (base core_name : string) : string :=
  base ++ "/admin/cores?action=STATUS&core=" ++ core_name ++ "&wt=json".

(** The server answers the status request for [core_name] in state [w] with
    a 2xx response whose JSON has a dict under [status], and [core_name] is a
    key of that dict or not, as [present] says. *)
Definition answers_status {S} (E : Env S) (base core_name : string)
  (w w' : S) (present : bool) : Prop :=
  exists r fields cores,
    requests_get E (status_url base core_name) [] w = (w', inr r) /\
    raise_for_status r = Return tt /\
    json_body r = JsonOk (JObj fields) /\
    lookup "status" fields = Some (JObj cores) /\
    has_key core_name cores = present.

(** The server answers the create request for [core_name] in state [w] with
    a 2xx response whose JSON is a dict with the key [success]. *)
Definition answers_create {S} (E : Env S) (base core_name : string)
  (w w' : S) : Prop :=
  exists r fields,
    requests_get E (base ++ "/admin/cores") (create_params core_name) w
      = (w', inr r) /\
    raise_for_status r = Return tt /\
    json_body r = JsonOk (JObj fields) /\
    has_key "success" fields = true.

(** Create, check, create again: the three results of the idempotence
    property, for a create operation and an exists operation. *)
Definition creates_once {S} (create : string -> M S string)
  (exists_ : string -> M S bool) (core_name : string) (w w2 : S) : Prop :=
  value (create core_name w)
    = Return ("Core " ++ core_name ++ " created successfully.") /\
  final (create core_name w) = w2 /\
  existsb is_create (trace (create core_name w)) = true /\
  value (exists_ core_name w2) = Return true /\
  value (create core_name w2)
    = Return ("Core " ++ core_name ++ " already exists.") /\
  existsb is_create (trace (create core_name w2)) = false.

(** Every event of every run of a program satisfies [P]. *)
Definition traces {S A} (P : event -> Prop) (m : M S A) : Prop :=
  forall s, Forall P (trace (m s)).

(** A program that returns, whatever the world does. *)
Definition returns {S A} (m : M S A) : Prop :=
  forall s, exists a, value (m s) = Return a.




(** The test [main] applies to a result before its extra printed line:
    [isinstance(x, str) and "Failed" in x], and for the results that are
    always strings, ["Failed" in x]. *)
Definition failed_in (s : string) : bool := contains "Failed" s.

Definition failure_reported (v : pyval) : bool :=
  match v with
  | VStr s => failed_in s
  | _ => false
  end.

(** The test on what an operation gave back; an exception gives [main] no
    value to test. *)
Definition reported {A} (test : A -> bool) (r : result A) : bool :=
  match r with
  | Return v => test v
  | Raise _ => false
  end.

Definition raised {A B} (r : A + B) : bool :=
  match r with inl _ => true | inr _ => false end.

Definition is_some {A} (o : option A) : bool :=
  match o with Some _ => true | None => false end.


Definition facet_json (facet_counts : json) : json :=
  JObj [("facet_fields", JObj [("Department", facet_counts)])].

(** [','.join(names)]. *)
Fixpoint join_comma (names : list string) : string :=
  match names with
  | [] => EmptyString
  | [name] => name
  | name :: rest => name ++ "," ++ join_comma rest
  end.

(** The status codes for which [raise_for_status] raises. *)
Definition error_status (r : response) : bool :=
  (400 <=? status_code r) && (status_code r <? 600).

(** A name without a comma. *)
Fixpoint no_comma (name : string) : bool :=
  match name with
  | EmptyString => true
  | String c rest => negb (Ascii.eqb c ","%char) && no_comma rest
  end.

(** Whether a result is a returned value. *)
Definition returned {A} (r : result A) : bool :=
  match r with
  | Return _ => true
  | Raise _ => false
  end.


(** The refactored client configured with the baseline's URL. *)
Definition baseline_client : Optimized.SolrClient :=
  Optimized.mkClient Baseline.SOLR_URL.

(** ** The programs as a logic of traces and results *)

Section TraceLogic.
Context {S : Type} (P : event -> Prop).








Lemma traces_with_open {A} (E : Env S) (path : string)
  (body : file_data -> M S A) :
  P (EvOpen path) -> P (EvClose path) ->
  (forall file, traces P (body file)) ->
  traces P (with_open E path body).
Proof.
  intros Ho Hc Hb s. unfold with_open.
  destruct (open_file E path s) as [s1 [e|file]]; cbn.
  - constructor.
  - constructor; [exact Ho|]. apply Forall_app. split; [apply Hb|].
    constructor; [exact Hc | constructor].
Qed.



End TraceLogic.

Lemma returns_ret {S A} (a : A) : returns (@ret S A a).
Proof. intros s. exists a. reflexivity. Qed.

Lemma returns_try {S A} (body : M S A) (handler : exn -> option (M S A)) :
  (forall e, exists h, handler e = Some h /\ returns h) ->
  returns (try_except body handler).
Proof.
  intros Hh s. unfold try_except.
  destruct (value (body s)) as [a|e] eqn:Hv.
  - exists a. exact Hv.
  - destruct (Hh e) as (h & -> & Hr).
    destruct (Hr (final (body s))) as [a Ha]. exists a. cbn. exact Ha.
Qed.

Lemma returns_try_all {S A} (body : M S A) (h : exn -> M S A) :
  (forall e, returns (h e)) -> returns (try_except body (except_Exception h)).
Proof.
  intros Hh. apply returns_try. intros e. exists (h e). split; [reflexivity|].
  apply Hh.
Qed.



(** ** The two files against each other *)

Section SameOperations.
Context {S : Type} (E : Env S).

Lemma check_core_exists_same (core_name : string) :
  Optimized.check_core_exists E baseline_client core_name
  = Baseline.check_core_exists E core_name.
Proof. reflexivity. Qed.

Lemma create_core_same (core_name : string) :
  Optimized.create_core E baseline_client core_name
  = Baseline.createCore E core_name.
Proof. reflexivity. Qed.

Lemma search_same_calls (core_name column_name column_value : string) (w : S) :
  let b := Baseline.searchByColumn E core_name column_name column_value w in
  let o := Optimized.search_by_column E baseline_client core_name column_name
             column_value w in
  final o = final b /\ trace o = trace b
  /\ value o = or_empty (VDocs []) (value b).
Proof.
  unfold Baseline.searchByColumn, Optimized.search_by_column, try_except,
    except_Exception, bind, call, ret. cbn.
  destruct (solr_search E _ _ _ w) as [w' [e|r]]; cbn; auto.
Qed.

Lemma facet_same_calls (core_name : string) (w : S) :
  let b := Baseline.getDepFacet E core_name w in
  let o := Optimized.get_department_facet E baseline_client core_name w in
  final o = final b /\ trace o = trace b
  /\ value o = or_empty (VDict []) (value b).
Proof.
  unfold Baseline.getDepFacet, Optimized.get_department_facet, try_except,
    except_Exception, bind, call, lift, ret. cbn.
  destruct (solr_search E _ _ _ w) as [w' [e|r]]; cbn; auto.
  destruct (department_facet (res_facets r)); cbn; auto.
Qed.

Lemma index_same_strings (core_name exclude_column : string) (w : S) :
  match value (Baseline.indexData E core_name exclude_column w) with
  | Return s =>
      (s = "Failed to index data: CSV file not found" /\
       value (Optimized.index_data E baseline_client core_name exclude_column
                "employee_data.csv" w)
       = Return "Failed to index data: CSV file employee_data.csv not found")
      \/ value (Optimized.index_data E baseline_client core_name
                  exclude_column "employee_data.csv" w) = Return s
  | Raise _ => True
  end.
Proof.
  unfold Baseline.indexData, Optimized.index_data, try_except,
    except_FileNotFoundError, bind, with_open, read_documents, call_unit, ret,
    raise. cbn.
  destruct (open_file E _ w) as [w1 [e|file]]; cbn.
  - destruct e; cbn; auto.
  - destruct (fd_error file) as [e|]; cbn.
    + destruct e; cbn; auto.
    + destruct (solr_add E _ _ w1) as [w2 [e|]]; cbn; auto.
      destruct e; cbn; auto.
Qed.

End SameOperations.

(** C1, as stated, fails: on a server whose search request fails, the
    baseline [searchByColumn] returns a failure string and the refactored
    [search_by_column] returns an empty list. *)
Lemma search_results_differ :
  value (Baseline.searchByColumn Sample.unsearchable "Hash_YourName"
           "Department" "IT" [])
  <> value (Optimized.search_by_column Sample.unsearchable baseline_client
              "Hash_YourName" "Department" "IT" []).
Proof. vm_compute. discriminate. Qed.

(** C1, amended: with the refactored client configured with the baseline's
    URL, check connection, core exists, create core, get count and delete by
    id are the same programs (same requests, same final state, same result);
    search by column and facet counts issue the same request and return the
    same result, except that where the baseline returns a failure string the
    refactor returns an empty list or an empty mapping; index data on
    [employee_data.csv] returns the same string whenever the baseline
    returns one, except for the file-not-found message, which the refactor
    words with the file's name. *)
Theorem refactor_agrees_up_to_failure_values :
  forall (S : Type) (E : Env S) (w : S)
         (core_name column_name column_value employee_id exclude_column : string),
    Optimized.check_connection E baseline_client w
      = Baseline.check_solr_connection E w /\
    Optimized.check_core_exists E baseline_client core_name w
      = Baseline.check_core_exists E core_name w /\
    Optimized.create_core E baseline_client core_name w
      = Baseline.createCore E core_name w /\
    Optimized.get_employee_count E baseline_client core_name w
      = Baseline.getEmpCount E core_name w /\
    Optimized.delete_employee_by_id E baseline_client core_name employee_id w
      = Baseline.delEmpById E core_name employee_id w /\
    (let b := Baseline.searchByColumn E core_name column_name column_value w in
     let o := Optimized.search_by_column E baseline_client core_name
                column_name column_value w in
     final o = final b /\ trace o = trace b
     /\ value o = or_empty (VDocs []) (value b)) /\
    (let b := Baseline.getDepFacet E core_name w in
     let o := Optimized.get_department_facet E baseline_client core_name w in
     final o = final b /\ trace o = trace b
     /\ value o = or_empty (VDict []) (value b)) /\
    match value (Baseline.indexData E core_name exclude_column w) with
    | Return s =>
        (s = "Failed to index data: CSV file not found" /\
         value (Optimized.index_data E baseline_client core_name
                  exclude_column "employee_data.csv" w)
         = Return "Failed to index data: CSV file employee_data.csv not found")
        \/ value (Optimized.index_data E baseline_client core_name
                    exclude_column "employee_data.csv" w) = Return s
    | Raise _ => True
    end.
Proof.
  intros S E w core_name column_name column_value employee_id exclude_column.
  repeat split; try reflexivity.
  - apply (search_same_calls E).
  - apply (search_same_calls E).
  - apply (search_same_calls E).
  - apply (facet_same_calls E).
  - apply (facet_same_calls E).
  - apply (facet_same_calls E).
  - apply index_same_strings.
Qed.

(** ** Search by column *)

(** C6: for every field name and value, both variants send to the server
    exactly the field name, a colon, a double quote, the value and a double
    quote, and nothing else; the value is not escaped, so two different
    pairs of field and value, one with a quote and a colon inside the value,
    send the same query. *)
Theorem search_query_is_interpolated :
  forall (S : Type) (E : Env S) (self : Optimized.SolrClient) (w : S)
         (core_name column_name column_value : string),
    trace (Baseline.searchByColumn E core_name column_name column_value w)
    = [EvSearch (Solr Baseline.SOLR_URL core_name)
         (column_name ++ ":" ++ dquote ++ column_value ++ dquote) []] /\
    trace (Optimized.search_by_column E self core_name column_name
             column_value w)
    = [EvSearch (Solr (Optimized.base_url self) core_name)
         (column_name ++ ":" ++ dquote ++ column_value ++ dquote) []] /\
    trace (Baseline.searchByColumn E core_name
             "a" ("b" ++ dquote ++ ":" ++ dquote ++ "c") w)
    = trace (Baseline.searchByColumn E core_name
               ("a:" ++ dquote ++ "b" ++ dquote) "c" w).
Proof.
  intros S E self w core_name column_name column_value.
  unfold Baseline.searchByColumn, Optimized.search_by_column, try_except,
    except_Exception, bind, call, ret. cbn.
  split; [|split].
  - destruct (solr_search E _ _ _ w) as [w' [e|r]]; reflexivity.
  - destruct (solr_search E _ _ _ w) as [w' [e|r]]; reflexivity.
  - reflexivity.
Qed.

(** Unfolding of the monad, leaving strings and the oracles as they are. *)
Ltac py_run :=
  cbv beta iota zeta delta
    [bind try_except call call_unit lift ret raise emit with_open
     read_documents except_RequestException except_Exception
     except_FileNotFoundError report_response hasattr_response exn_response
     is_RequestException is_FileNotFoundError value final trace fd_rows
     fd_error].

Ltac py_step H := rewrite H; py_run.


(** ** Core exists and create core *)

Section CoreAdmin.
Context {S : Type} (E : Env S) (self : Optimized.SolrClient).

Lemma check_core_exists_answered (core_name : string) (w w' : S)
  (present : bool) :
  answers_status E (Optimized.base_url self) core_name w w' present ->
  Optimized.check_core_exists E self core_name w
  = mkOutcome w' [EvGet (status_url (Optimized.base_url self) core_name) []]
      (Return present).
Proof.
  intros (r & fields & cores & Hget & Hst & Hjson & Hlk & Hkey).
  unfold Optimized.check_core_exists.
  fold (status_url (Optimized.base_url self) core_name).
  py_run. py_step Hget. py_step Hst.
  unfold response_json. py_step Hjson.
  unfold subscript. py_step Hlk.
  unfold py_in. py_step Hkey.
  destruct present; reflexivity.
Qed.

Lemma create_core_present (core_name : string) (w w' : S) :
  answers_status E (Optimized.base_url self) core_name w w' true ->
  Optimized.create_core E self core_name w
  = mkOutcome w' [EvGet (status_url (Optimized.base_url self) core_name) []]
      (Return ("Core " ++ core_name ++ " already exists.")).
Proof.
  intros H. unfold Optimized.create_core, bind.
  rewrite (check_core_exists_answered _ _ _ _ H). reflexivity.
Qed.

Lemma create_core_absent (core_name : string) (w w1 w2 : S) :
  answers_status E (Optimized.base_url self) core_name w w1 false ->
  answers_create E (Optimized.base_url self) core_name w1 w2 ->
  Optimized.create_core E self core_name w
  = mkOutcome w2
      [EvGet (status_url (Optimized.base_url self) core_name) [];
       EvGet (Optimized.base_url self ++ "/admin/cores")
         (create_params core_name)]
      (Return ("Core " ++ core_name ++ " created successfully.")).
Proof.
  intros H (r & fields & Hget & Hst & Hjson & Hkey).
  unfold Optimized.create_core. unfold bind at 1.
  rewrite (check_core_exists_answered _ _ _ _ H).
  py_run. py_step Hget. py_step Hst.
  unfold response_json. py_step Hjson.
  unfold py_in. py_step Hkey. reflexivity.
Qed.

Lemma creates_once_refactor (core_name : string) (w w1 w2 w3 : S) :
  answers_status E (Optimized.base_url self) core_name w w1 false ->
  answers_create E (Optimized.base_url self) core_name w1 w2 ->
  answers_status E (Optimized.base_url self) core_name w2 w3 true ->
  creates_once (Optimized.create_core E self)
    (Optimized.check_core_exists E self) core_name w w2.
Proof.
  intros H1 H2 H3. unfold creates_once.
  rewrite (create_core_absent _ _ _ _ H1 H2).
  rewrite (create_core_present _ _ _ H3).
  rewrite (check_core_exists_answered _ _ _ _ H3).
  repeat split.
Qed.

(** A status request that fails with an exception carrying a response (the
    [HTTPError] of an error status, for one) makes the check return
    [False]. *)
Lemma check_core_exists_error_response (core_name msg : string) (r : response)
  (w w' : S) :
  requests_get E (status_url (Optimized.base_url self) core_name) [] w
    = (w', inl (RequestException msg (Some r))) ->
  Optimized.check_core_exists E self core_name w
  = mkOutcome w' [EvGet (status_url (Optimized.base_url self) core_name) []]
      (Return false).
Proof.
  intros Hget. unfold Optimized.check_core_exists.
  fold (status_url (Optimized.base_url self) core_name).
  py_run. py_step Hget. reflexivity.
Qed.

(** A status request that fails in the transport, with no response, makes
    the handler itself fail. *)
Lemma check_core_exists_no_response (core_name msg : string) (w w' : S) :
  requests_get E (status_url (Optimized.base_url self) core_name) [] w
    = (w', inl (RequestException msg None)) ->
  Optimized.check_core_exists E self core_name w
  = mkOutcome w' [EvGet (status_url (Optimized.base_url self) core_name) []]
      (Raise (AttributeError
                "'NoneType' object has no attribute 'status_code'")).
Proof.
  intros Hget. unfold Optimized.check_core_exists.
  fold (status_url (Optimized.base_url self) core_name).
  py_run. py_step Hget. reflexivity.
Qed.

(** After a status request that failed with an error response, create core
    goes on to the CREATE request. *)
Lemma create_core_after_error_response (core_name msg : string) (r : response)
  (w w' : S) :
  requests_get E (status_url (Optimized.base_url self) core_name) [] w
    = (w', inl (RequestException msg (Some r))) ->
  existsb is_create (trace (Optimized.create_core E self core_name w)) = true.
Proof.
  intros Hget. unfold Optimized.create_core. unfold bind at 1.
  rewrite (check_core_exists_error_response _ _ _ _ _ Hget).
  unfold try_except, bind, call. cbn.
  destruct (requests_get E _ _ w') as [w2 [e|r2]]; cbn.
  - destruct e; reflexivity.
  - destruct (raise_for_status r2) as [u|e]; cbn; [|destruct e; reflexivity].
    destruct (response_json r2) as [j|e]; cbn; [|destruct e; reflexivity].
    destruct (py_in "success" j) as [b|e]; cbn; [|destruct e; reflexivity].
    destruct b; reflexivity.
Qed.

End CoreAdmin.

(** C4, amended: for every core name, on a server that reports the core
    absent, answers the create request without an error status and with a
    [success] entry in its JSON, and then reports the core present, create
    core returns the created status after issuing a create request, the
    exists check after it returns true, and create core called again
    returns the already-exists status without issuing a create request.
    This holds for the refactored client at any base URL and, at the
    baseline's URL, for the baseline script. *)
Theorem create_core_is_idempotent :
  forall (S : Type) (E : Env S) (self : Optimized.SolrClient)
         (core_name : string) (w w1 w2 w3 : S),
    answers_status E (Optimized.base_url self) core_name w w1 false ->
    answers_create E (Optimized.base_url self) core_name w1 w2 ->
    answers_status E (Optimized.base_url self) core_name w2 w3 true ->
    creates_once (Optimized.create_core E self)
      (Optimized.check_core_exists E self) core_name w w2 /\
    (Optimized.base_url self = Baseline.SOLR_URL ->
     creates_once (Baseline.createCore E) (Baseline.check_core_exists E)
       core_name w w2).
Proof.
  intros S E self core_name w w1 w2 w3 H1 H2 H3. split.
  - exact (creates_once_refactor E self core_name w w1 w2 w3 H1 H2 H3).
  - intros Hurl. destruct self as [base]. cbn in Hurl. subst base.
    exact (creates_once_refactor E baseline_client core_name w w1 w2 w3
             H1 H2 H3).
Qed.

Lemma sample_answers_status (rows : list (list string)) (core_name : string)
  (cores : list string) :
  answers_status (Sample.server rows) Baseline.SOLR_URL core_name cores cores
    (has_key core_name (map (fun c => (c, JObj [])) cores)).
Proof.
  exists (Sample.ok_response (status_url Baseline.SOLR_URL core_name)
            (Sample.status_body cores)).
  eexists. eexists. repeat split.
Qed.

Lemma create_core_is_idempotent_witness :
  creates_once (Optimized.create_core (Sample.server Sample.employees)
                  baseline_client)
    (Optimized.check_core_exists (Sample.server Sample.employees)
       baseline_client) "Hash_1234" [] ["Hash_1234"] /\
  (Optimized.base_url baseline_client = Baseline.SOLR_URL ->
   creates_once (Baseline.createCore (Sample.server Sample.employees))
     (Baseline.check_core_exists (Sample.server Sample.employees))
     "Hash_1234" [] ["Hash_1234"]).
Proof.
  apply (create_core_is_idempotent (list string)
           (Sample.server Sample.employees) baseline_client "Hash_1234"
           [] [] ["Hash_1234"] ["Hash_1234"]).
  - apply (sample_answers_status Sample.employees "Hash_1234" []).
  - eexists. eexists. repeat split.
  - apply (sample_answers_status Sample.employees "Hash_1234" ["Hash_1234"]).
Defined.

(** C4 as stated fails: on the server [Sample.terse] the core is absent
    and create core creates it, the exists check after it returns true, yet
    create core returns the failure string, in the refactor and in the
    baseline, because the answer to the create request names the core
    without a [success] entry.  No state completes the create, check,
    create again property from the empty server. *)
Lemma accepted_create_is_reported_failed :
  value (Optimized.check_core_exists Sample.terse baseline_client
           "Hash_1234" []) = Return false /\
  value (Optimized.create_core Sample.terse baseline_client "Hash_1234" [])
  = Return "Failed to create core Hash_1234. Response: {core}" /\
  value (Baseline.createCore Sample.terse "Hash_1234" [])
  = Return "Failed to create core Hash_1234. Response: {core}" /\
  existsb is_create
    (trace (Optimized.create_core Sample.terse baseline_client
              "Hash_1234" [])) = true /\
  final (Optimized.create_core Sample.terse baseline_client "Hash_1234" [])
  = ["Hash_1234"] /\
  value (Optimized.check_core_exists Sample.terse baseline_client
           "Hash_1234" ["Hash_1234"]) = Return true /\
  ~ (exists w2,
        creates_once (Optimized.create_core Sample.terse baseline_client)
          (Optimized.check_core_exists Sample.terse baseline_client)
          "Hash_1234" [] w2) /\
  ~ (exists w2,
        creates_once (Baseline.createCore Sample.terse)
          (Baseline.check_core_exists Sample.terse) "Hash_1234" [] w2).
Proof.
  split; [reflexivity|]. split; [reflexivity|]. split; [reflexivity|].
  split; [reflexivity|]. split; [reflexivity|]. split; [reflexivity|].
  split; intros [w2 [H _]]; vm_compute in H; discriminate H.
Qed.

Lemma append_cancel_l (p a b : string) : p ++ a = p ++ b -> a = b.
Proof.
  induction p as [|c p IH]; cbn; intros H; [exact H|].
  injection H as H. exact (IH H).
Qed.

(** ** Index data *)

Section IndexData.
Context {S : Type} (E : Env S) (self : Optimized.SolrClient).

(** The refactored [index_data] returns a string, whatever happens. *)
Lemma index_data_returns (core_name exclude_column csv_file : string) :
  returns (Optimized.index_data E self core_name exclude_column csv_file).
Proof.
  apply returns_try. intros e.
  destruct (is_FileNotFoundError e); eexists; (split; [reflexivity|]);
    apply returns_ret.
Qed.

(** A missing file: both variants return their file-not-found string. *)
Lemma index_missing_file (core_name exclude_column csv_file msg : string)
  (w w' : S) :
  open_file E csv_file w = (w', inl (FileNotFoundError msg)) ->
  value (Optimized.index_data E self core_name exclude_column csv_file w)
    = Return ("Failed to index data: CSV file " ++ csv_file ++ " not found")
  /\ (csv_file = "employee_data.csv" ->
      value (Baseline.indexData E core_name exclude_column w)
        = Return "Failed to index data: CSV file not found").
Proof.
  intros Hopen. split.
  - unfold Optimized.index_data. py_run. py_step Hopen. reflexivity.
  - intros ->. unfold Baseline.indexData. py_run. py_step Hopen. reflexivity.
Qed.

(** A rejected batch: the refactor returns the generic failure string, the
    baseline lets the exception of [solr.add] through. *)
Lemma index_rejected_batch (core_name exclude_column csv_file : string)
  (rows : list (list string)) (e : exn) (w w1 w2 : S) :
  open_file E csv_file w = (w1, inr (mkFile rows None)) ->
  is_FileNotFoundError e = false ->
  (forall solr, solr_add E solr (csv_documents exclude_column rows) w1
                = (w2, Some e)) ->
  value (Optimized.index_data E self core_name exclude_column csv_file w)
    = Return ("Failed to index data: " ++ str e)
  /\ (csv_file = "employee_data.csv" ->
      value (Baseline.indexData E core_name exclude_column w) = Raise e).
Proof.
  intros Hopen He Hadd. split.
  - unfold Optimized.index_data. py_run. py_step Hopen. py_step Hadd.
    destruct e; try discriminate He; reflexivity.
  - intros ->. unfold Baseline.indexData. py_run. py_step Hopen.
    py_step Hadd. destruct e; try discriminate He; reflexivity.
Qed.

(** The two failure strings of the refactor differ unless the exception's
    own text is the file-not-found wording. *)
Lemma index_failure_strings_differ (csv_file : string) (e : exn) :
  str e <> "CSV file " ++ csv_file ++ " not found" ->
  "Failed to index data: " ++ str e
  <> "Failed to index data: CSV file " ++ csv_file ++ " not found".
Proof.
  intros Hne Heq. apply Hne.
  exact (append_cancel_l "Failed to index data: " _
           ("CSV file " ++ csv_file ++ " not found") Heq).
Qed.

(** The order of the file and the batch in the two variants. *)
Lemma index_data_adds_after_close (core_name exclude_column csv_file : string)
  (w : S) :
  adds_where true false
    (trace (Optimized.index_data E self core_name exclude_column csv_file w))
  = false.
Proof.
  unfold Optimized.index_data. py_run.
  destruct (open_file E csv_file w) as [w1 [e|[rows [e|]]]]; py_run.
  - destruct e; reflexivity.
  - destruct e; reflexivity.
  - destruct (solr_add E _ _ w1) as [w2 [e|]]; py_run;
      [destruct e|]; reflexivity.
Qed.

Lemma indexData_adds_before_close (core_name exclude_column : string) (w : S) :
  adds_where false false
    (trace (Baseline.indexData E core_name exclude_column w)) = false
  /\ open_after false
       (trace (Baseline.indexData E core_name exclude_column w)) = false.
Proof.
  unfold Baseline.indexData. py_run.
  destruct (open_file E _ w) as [w1 [e|[rows [e|]]]]; py_run.
  - destruct e; split; reflexivity.
  - destruct e; split; reflexivity.
  - destruct (solr_add E _ _ w1) as [w2 [e|]]; py_run;
      [destruct e|]; split; reflexivity.
Qed.

End IndexData.

(** C2 fails on the baseline: with the CSV file in place and a server that
    rejects the batch, [indexData] raises the exception of [solr.add] to its
    caller, where the refactored [index_data] returns its generic failure
    string; with the file missing, both return their file-not-found
    string. *)
Theorem rejected_batch_escapes_indexData :
  value (Baseline.indexData Sample.rejecting "Hash_YourName" "Department"
           Sample.both_cores)
  = Raise Sample.rejected /\
  value (Optimized.index_data Sample.rejecting baseline_client
           "Hash_YourName" "Department" "employee_data.csv" Sample.both_cores)
  = Return ("Failed to index data: " ++ str Sample.rejected) /\
  value (Baseline.indexData Sample.fileless "Hash_YourName" "Department"
           Sample.both_cores)
  = Return "Failed to index data: CSV file not found" /\
  value (Optimized.index_data Sample.fileless baseline_client
           "Hash_YourName" "Department" "employee_data.csv" Sample.both_cores)
  = Return "Failed to index data: CSV file employee_data.csv not found".
Proof. repeat split. Qed.

(** C8, as stated, fails on the baseline: its [solr.add] stands inside the
    [with] block, so the batch is sent while the file is open. *)
Lemma indexData_adds_while_open :
  trace (Baseline.indexData (Sample.server Sample.employees) "Hash_YourName"
           "Department" [])
  = [EvOpen "employee_data.csv";
     EvAdd (Solr Baseline.SOLR_URL "Hash_YourName")
       (csv_documents "Department" Sample.employees);
     EvClose "employee_data.csv"] /\
  adds_where true false
    (trace (Baseline.indexData (Sample.server Sample.employees)
              "Hash_YourName" "Department" [])) = true.
Proof. split; reflexivity. Qed.

(** C8, amended: in the refactored [index_data] the batch is never sent
    while the file is open: the file is closed after the rows are read and
    before the add request.  In the baseline [indexData] the batch is sent
    inside the [with] block, never outside it, and the file is closed when
    the operation ends, whether the add request returned or raised. *)
Theorem file_scope_of_the_add_request :
  forall (S : Type) (E : Env S) (self : Optimized.SolrClient) (w : S)
         (core_name exclude_column csv_file : string),
    adds_where true false
      (trace (Optimized.index_data E self core_name exclude_column csv_file w))
    = false /\
    adds_where false false
      (trace (Baseline.indexData E core_name exclude_column w)) = false /\
    open_after false
      (trace (Baseline.indexData E core_name exclude_column w)) = false.
Proof.
  intros S E self w core_name exclude_column csv_file. split.
  - apply index_data_adds_after_close.
  - apply indexData_adds_before_close.
Qed.

(** ** Which operations can raise *)

Section Returning.
Context {S : Type} (E : Env S) (self : Optimized.SolrClient).

Lemma returns_bind {A B} (m : M S A) (f : A -> M S B) :
  returns m -> (forall a, returns (f a)) -> returns (bind m f).
Proof.
  intros Hm Hf s. unfold bind. destruct (Hm s) as [a Ha]. rewrite Ha.
  destruct (Hf a (final (m s))) as [b Hb]. exists b. exact Hb.
Qed.

Lemma returns_for_each {A} (xs : list A) (body : A -> M S unit) :
  (forall x, returns (body x)) -> returns (for_each xs body).
Proof.
  intros Hb. induction xs as [|x rest IH]; cbn.
  - apply returns_ret.
  - apply returns_bind; [apply Hb | intros _; exact IH].
Qed.

Lemma searchByColumn_returns (c f v : string) :
  returns (Baseline.searchByColumn E c f v).
Proof. apply returns_try_all. intros e. apply returns_ret. Qed.

Lemma getEmpCount_returns (c : string) : returns (Baseline.getEmpCount E c).
Proof. apply returns_try_all. intros e. apply returns_ret. Qed.

Lemma delEmpById_returns (c id : string) :
  returns (Baseline.delEmpById E c id).
Proof. apply returns_try_all. intros e. apply returns_ret. Qed.

Lemma getDepFacet_returns (c : string) : returns (Baseline.getDepFacet E c).
Proof. apply returns_try_all. intros e. apply returns_ret. Qed.

Lemma search_by_column_returns (c f v : string) :
  returns (Optimized.search_by_column E self c f v).
Proof. apply returns_try_all. intros e. apply returns_ret. Qed.

Lemma get_employee_count_returns (c : string) :
  returns (Optimized.get_employee_count E self c).
Proof. apply returns_try_all. intros e. apply returns_ret. Qed.

Lemma delete_employee_by_id_returns (c id : string) :
  returns (Optimized.delete_employee_by_id E self c id).
Proof. apply returns_try_all. intros e. apply returns_ret. Qed.

Lemma get_department_facet_returns (c : string) :
  returns (Optimized.get_department_facet E self c).
Proof. apply returns_try_all. intros e. apply returns_ret. Qed.

(** In the refactored driver, the indexing phase and the operations on a
    core go through to their end. *)
Lemma index_data_to_cores_returns (configs : list (string * string))
  (csv_file : string) :
  returns (Optimized.index_data_to_cores E self configs csv_file).
Proof.
  apply returns_for_each. intros [c x]. apply returns_bind.
  - apply index_data_returns.
  - intros _. apply returns_ret.
Qed.

Lemma perform_operations_returns (c : string) :
  returns (Optimized.perform_operations E self c).
Proof.
  unfold Optimized.perform_operations.
  apply returns_bind; [apply delete_employee_by_id_returns | intros _].
  apply returns_bind; [apply get_employee_count_returns | intros _].
  apply returns_bind; [apply search_by_column_returns | intros _].
  apply returns_bind; [apply get_department_facet_returns | intros _].
  apply returns_ret.
Qed.

(** A connectivity check that returns [False] ends [main] at once. *)
Lemma main_returns_early (w : S) :
  value (Baseline.check_solr_connection E w) = Return false ->
  Baseline.main E w
  = mkOutcome (final (Baseline.check_solr_connection E w))
      (trace (Baseline.check_solr_connection E w)) (Return tt).
Proof.
  intros H. unfold Baseline.main. unfold bind at 1. rewrite H. cbn.
  rewrite app_nil_r. reflexivity.
Qed.

End Returning.

(** C3 fails: an exception leaves the admin client in three places.  The
    baseline [indexData] lets the exception of a rejected batch through; and
    in both variants a status answer without a [status] entry leaves
    [check_core_exists], and create core with it, by a [KeyError]. *)
Theorem operations_that_raise :
  value (Baseline.indexData Sample.rejecting "Hash_1234" "Gender"
           Sample.both_cores)
  = Raise Sample.rejected /\
  value (Baseline.check_core_exists Sample.keyless "Hash_1234" [])
  = Raise (KeyError "status") /\
  value (Optimized.check_core_exists Sample.keyless baseline_client
           "Hash_1234" [])
  = Raise (KeyError "status") /\
  value (Baseline.createCore Sample.keyless "Hash_1234" [])
  = Raise (KeyError "status") /\
  value (Optimized.create_core Sample.keyless baseline_client "Hash_1234" [])
  = Raise (KeyError "status").
Proof. repeat split. Qed.

(** C7 fails: in the baseline [main], a rejected batch in the indexing step
    ends the run by an exception, before the delete step, and the exit
    status is 1, where the same run on a server that accepts the batch goes
    through to the end with exit status 0; in the refactored [main], a
    status answer without a [status] entry ends the run in the create
    step. *)
Theorem failed_step_stops_main :
  value (Baseline.main Sample.rejecting Sample.both_cores)
  = Raise Sample.rejected /\
  exit_status (value (Baseline.main Sample.rejecting Sample.both_cores)) = 1 /\
  existsb is_delete (trace (Baseline.main Sample.rejecting Sample.both_cores))
  = false /\
  exit_status
    (value (Baseline.main (Sample.server Sample.employees) Sample.both_cores))
  = 0 /\
  existsb is_delete
    (trace (Baseline.main (Sample.server Sample.employees) Sample.both_cores))
  = true /\
  value (Optimized.main Sample.keyless []) = Raise (KeyError "status") /\
  existsb is_add (trace (Optimized.main Sample.keyless [])) = false.
Proof. repeat split. Qed.

(** C10 fails: when the status request fails in the transport, the exception
    carries no response, the handler of [check_core_exists] fails on
    [e.response.status_code] before its [return False], and create core
    ends with that exception, without a CREATE request. *)
Theorem transport_error_escapes_core_check :
  value (Baseline.check_core_exists Sample.unreachable "Hash_1234" [])
  = Raise (AttributeError "'NoneType' object has no attribute 'status_code'") /\
  value (Optimized.check_core_exists Sample.unreachable baseline_client
           "Hash_1234" [])
  = Raise (AttributeError "'NoneType' object has no attribute 'status_code'") /\
  value (Baseline.createCore Sample.unreachable "Hash_1234" [])
  = Raise (AttributeError "'NoneType' object has no attribute 'status_code'") /\
  trace (Baseline.createCore Sample.unreachable "Hash_1234" [])
  = [EvGet (status_url Baseline.SOLR_URL "Hash_1234") []] /\
  existsb is_create
    (trace (Optimized.create_core Sample.unreachable baseline_client
              "Hash_1234" [])) = false.
Proof. repeat split. Qed.

(** ** The documents built from a CSV file *)

Section Dicts.
Context {K V : Type} (eqb : K -> K -> bool).
Hypothesis eqb_spec : forall a b, eqb a b = true <-> a = b.

Lemma keys_dict_set (k0 : K) (v0 : V) (d : list (K * V)) (k : K) :
  In k (keys (dict_set eqb k0 v0 d)) <-> k = k0 \/ In k (keys d).
Proof.
  induction d as [|[k' v'] rest IH]; cbn.
  - intuition congruence.
  - destruct (eqb k' k0) eqn:Hk; cbn.
    + apply eqb_spec in Hk. subst k'. intuition congruence.
    + rewrite IH. intuition congruence.
Qed.

Lemma keys_fold_dict_set (pairs d : list (K * V)) (k : K) :
  In k (keys (fold_left (fun d kv => dict_set eqb (fst kv) (snd kv) d)
                pairs d))
  <-> In k (keys pairs) \/ In k (keys d).
Proof.
  revert d. induction pairs as [|[k0 v0] rest IH]; intros d.
  - cbn. intuition.
  - simpl fold_left. rewrite IH, keys_dict_set. unfold keys. cbn.
    intuition congruence.
Qed.

Lemma keys_dict_of (pairs : list (K * V)) (k : K) :
  In k (keys (dict_of eqb pairs)) <-> In k (keys pairs).
Proof.
  unfold dict_of. rewrite keys_fold_dict_set. cbn. intuition.
Qed.




End Dicts.

Lemma okey_eqb_spec (a b : option string) : okey_eqb a b = true <-> a = b.
Proof.
  destruct a as [x|], b as [y|]; cbn; try (intuition congruence).
  rewrite String.eqb_eq. intuition congruence.
Qed.

Lemma keys_combine {A B : Type} (l1 : list A) (l2 : list B) :
  keys (combine l1 l2) = firstn (length l2) l1.
Proof.
  revert l2. induction l1 as [|a l1 IH]; intros [|b l2]; cbn;
    try reflexivity.
  f_equal. apply IH.
Qed.

Lemma keys_fold_restval (rest : list string) (d : doc) (k : option string) :
  In k (keys (fold_left (fun d key => dict_set okey_eqb (Some key) CNone d)
                rest d))
  <-> In k (map Some rest) \/ In k (keys d).
Proof.
  revert d. induction rest as [|key rest IH]; intros d.
  - cbn. intuition.
  - simpl fold_left. rewrite IH, (keys_dict_set okey_eqb okey_eqb_spec).
    cbn. intuition congruence.
Qed.

(** A row no longer than the header becomes a dict whose keys are the
    header's names. *)
Lemma keys_row_dict (fieldnames row : list string) (k : option string) :
  (length row <= length fieldnames)%nat ->
  (In k (keys (row_dict fieldnames row)) <-> In k (map Some fieldnames)).
Proof.
  intros Hlen. unfold row_dict.
  destruct (Nat.ltb_spec (length fieldnames) (length row)) as [Hlt|_];
    [lia|].
  rewrite keys_fold_restval, (keys_dict_of okey_eqb okey_eqb_spec).
  rewrite keys_combine, length_map, firstn_map.
  rewrite or_comm, <- in_app_iff, <- map_app, firstn_skipn. reflexivity.
Qed.

(** The comprehension keeps every key but the excluded column. *)
Lemma keys_drop_column (exclude_column : string) (row : doc)
  (k : option string) :
  In k (keys (drop_column exclude_column row))
  <-> In k (keys row) /\ k <> Some exclude_column.
Proof.
  unfold drop_column, keys. induction row as [|[k' v'] rest IH]; cbn.
  - intuition.
  - destruct (okey_eqb k' (Some exclude_column)) eqn:Hk; cbn.
    + apply okey_eqb_spec in Hk. rewrite IH. intuition congruence.
    + assert (k' <> Some exclude_column) as Hne.
      { intros Heq. apply okey_eqb_spec in Heq. congruence. }
      rewrite IH. intuition congruence.
Qed.

Lemma length_csv_documents (exclude_column : string)
  (fieldnames : list string) (data : list (list string)) :
  length (csv_documents exclude_column (fieldnames :: data))
  = length (filter (fun r => negb (is_blank r)) data).
Proof. unfold csv_documents, dict_reader. rewrite !length_map. reflexivity. Qed.

(** Under any header, the documents of rows no longer than the header have
    the header's names but the excluded column as their keys. *)
Lemma keys_csv_documents (exclude_column : string) (fieldnames : list string)
  (data : list (list string)) (d : doc) (k : option string) :
  Forall (fun row => (length row <= length fieldnames)%nat) data ->
  In d (csv_documents exclude_column (fieldnames :: data)) ->
  (In k (keys d) <-> In k (map Some fieldnames) /\ k <> Some exclude_column).
Proof.
  intros Hshort Hd. unfold csv_documents, dict_reader in Hd.
  apply in_map_iff in Hd. destruct Hd as (r & <- & Hr).
  apply in_map_iff in Hr. destruct Hr as (row & <- & Hrow).
  apply filter_In in Hrow. destruct Hrow as [Hrow _].
  rewrite Forall_forall in Hshort.
  rewrite keys_drop_column, (keys_row_dict _ _ _ (Hshort row Hrow)).
  reflexivity.
Qed.

Section IndexedDocuments.
Context {S : Type} (E : Env S) (self : Optimized.SolrClient).

(** With a readable file, each variant sends one batch: the documents of
    the file. *)
Lemma index_data_trace (core_name exclude_column csv_file : string)
  (rows : list (list string)) (w w1 : S) :
  open_file E csv_file w = (w1, inr (mkFile rows None)) ->
  trace (Optimized.index_data E self core_name exclude_column csv_file w)
  = [EvOpen csv_file; EvClose csv_file;
     EvAdd (Solr (Optimized.base_url self) core_name)
       (csv_documents exclude_column rows)].
Proof.
  intros Hopen. unfold Optimized.index_data. py_run. py_step Hopen.
  destruct (solr_add E _ _ w1) as [w2 [e|]]; py_run;
    [destruct e|]; reflexivity.
Qed.

Lemma indexData_trace (core_name exclude_column : string)
  (rows : list (list string)) (w w1 : S) :
  open_file E "employee_data.csv" w = (w1, inr (mkFile rows None)) ->
  trace (Baseline.indexData E core_name exclude_column w)
  = [EvOpen "employee_data.csv";
     EvAdd (Solr Baseline.SOLR_URL core_name)
       (csv_documents exclude_column rows);
     EvClose "employee_data.csv"].
Proof.
  intros Hopen. unfold Baseline.indexData. py_run. py_step Hopen.
  destruct (solr_add E _ _ w1) as [w2 [e|]]; py_run;
    [destruct e|]; reflexivity.
Qed.

End IndexedDocuments.

(** C5, as stated, fails: under the header A,B,C and with B excluded, a
    row of four fields becomes a document with the keys A, C and [None]
    (the surplus field is kept under [None]), and a blank line becomes no
    document: two data rows, one document. *)
Lemma surplus_field_becomes_a_key :
  trace (Optimized.index_data (Sample.server Sample.ragged) baseline_client
           "Hash_1234" "B" "employee_data.csv" [])
  = [EvOpen "employee_data.csv"; EvClose "employee_data.csv";
     EvAdd (Solr Baseline.SOLR_URL "Hash_1234")
       [[(Some "A", CStr "1"); (Some "C", CStr "3"); (None, CRest ["4"])]]] /\
  trace (Baseline.indexData (Sample.server Sample.ragged) "Hash_1234" "B" [])
  = [EvOpen "employee_data.csv";
     EvAdd (Solr Baseline.SOLR_URL "Hash_1234")
       [[(Some "A", CStr "1"); (Some "C", CStr "3"); (None, CRest ["4"])]];
     EvClose "employee_data.csv"] /\
  length (tl Sample.ragged) = 2%nat /\
  ~ (forall d k, In d (csv_documents "B" Sample.ragged) ->
                 (In k (keys d) <-> k = Some "A" \/ k = Some "C")).
Proof.
  repeat split.
  intros H. specialize (H _ None (or_introl eq_refl)).
  destruct H as [H _].
  assert (In None [Some "A"; Some "C"; None]) as Hin
    by (right; right; left; reflexivity).
  destruct (H Hin) as [X|X]; discriminate X.
Qed.

(** C5, amended: for every CSV file whose header is A,B,C, with B excluded
    (B being neither A nor C) and no data row longer than three fields,
    each variant sends one batch, every document of it has exactly the keys
    A and C, and the number of documents is the number of data rows that
    are not blank lines. *)
Theorem documents_of_a_three_column_file :
  forall (S : Type) (E : Env S) (self : Optimized.SolrClient) (w w1 : S)
         (core_name csv_file A B C : string) (data : list (list string)),
    B <> A -> B <> C ->
    Forall (fun row => (length row <= 3)%nat) data ->
    open_file E csv_file w = (w1, inr (mkFile ([A; B; C] :: data) None)) ->
    let docs := csv_documents B ([A; B; C] :: data) in
    trace (Optimized.index_data E self core_name B csv_file w)
    = [EvOpen csv_file; EvClose csv_file;
       EvAdd (Solr (Optimized.base_url self) core_name) docs] /\
    (csv_file = "employee_data.csv" ->
     trace (Baseline.indexData E core_name B w)
     = [EvOpen csv_file; EvAdd (Solr Baseline.SOLR_URL core_name) docs;
        EvClose csv_file]) /\
    length docs = length (filter (fun row => negb (is_blank row)) data) /\
    (forall d k, In d docs -> (In k (keys d) <-> k = Some A \/ k = Some C)).
Proof.
  intros S E self w w1 core_name csv_file A B C data HBA HBC Hshort Hopen docs.
  split; [|split; [|split]].
  - exact (index_data_trace E self core_name B csv_file _ w w1 Hopen).
  - intros ->. exact (indexData_trace E core_name B _ w w1 Hopen).
  - apply length_csv_documents.
  - intros d k Hd.
    rewrite (keys_csv_documents B [A; B; C] data d k Hshort Hd). cbn.
    split.
    + intros [[H|[H|[H|[]]]] Hne]; subst k; auto. congruence.
    + intros [Hk | Hk]; subst k; split; auto; congruence.
Qed.

Lemma documents_of_a_three_column_file_witness :
  let docs := csv_documents "B" Sample.regular in
  trace (Optimized.index_data (Sample.server Sample.regular) baseline_client
           "Hash_1234" "B" "employee_data.csv" [])
  = [EvOpen "employee_data.csv"; EvClose "employee_data.csv";
     EvAdd (Solr Baseline.SOLR_URL "Hash_1234") docs] /\
  ("employee_data.csv" = "employee_data.csv" ->
   trace (Baseline.indexData (Sample.server Sample.regular) "Hash_1234" "B" [])
   = [EvOpen "employee_data.csv";
      EvAdd (Solr Baseline.SOLR_URL "Hash_1234") docs;
      EvClose "employee_data.csv"]) /\
  length docs = 2%nat /\
  (forall d k, In d docs -> (In k (keys d) <-> k = Some "A" \/ k = Some "C")).
Proof.
  apply (documents_of_a_three_column_file (list string)
           (Sample.server Sample.regular) baseline_client [] []
           "Hash_1234" "employee_data.csv" "A" "B" "C"
           [["1"; "2"; "3"]; []; ["4"; "5"]]).
  - discriminate.
  - discriminate.
  - repeat constructor.
  - reflexivity.
Defined.

(** ** The excluded column of each core *)

Ltac handler Hh :=
  unfold except_RequestException, except_FileNotFoundError, except_Exception
    in Hh;
  repeat match type of Hh with
         | (if ?b then _ else _) = _ => destruct b
         end;
  first [discriminate Hh | injection Hh as <-].

Section ExcludedColumns.
Context {S : Type} (E : Env S) (allowed : string -> string -> Prop).














End ExcludedColumns.

Section Drivers.
Context {S : Type} (E : Env S).


Lemma core_configs_covers (core_names : list string) (c : string) :
  In c core_names ->
  exists x, In (c, x) (Optimized.core_configs E core_names).
Proof.
  intros Hc.
  assert (In c (keys (Optimized.core_configs E core_names))) as Hk.
  { unfold Optimized.core_configs.
    apply (keys_dict_of String.eqb String.eqb_eq).
    unfold keys. rewrite map_map. cbn. rewrite map_id. exact Hc. }
  unfold keys in Hk. apply in_map_iff in Hk.
  destruct Hk as ([c' x] & Hfst & Hin). cbn in Hfst. subst c'.
  exists x. exact Hin.
Qed.



End Drivers.

Section Stepping.
Context {S : Type}.



Lemma bind_value_return {A B} (m : M S A) (f : A -> M S B) (s : S) (a : A) :
  value (m s) = Return a ->
  value (bind m f s) = value (f a (final (m s))).
Proof. intros H. unfold bind. rewrite H. reflexivity. Qed.

Lemma returned_value {A} (r : result A) :
  returned r = true -> exists a, r = Return a.
Proof. destruct r as [a|e]; [exists a; reflexivity | discriminate]. Qed.


End Stepping.

Section Batches.
Context {S : Type} (E : Env S).












End Batches.



(** The batches of the two drivers on the sample server: the refactor drops
    [Department] for both cores, the baseline [Department] and [Gender]. *)
Example batches_of_the_sample_run :
  filter is_add (trace (Optimized.main (Sample.server Sample.employees) []))
  = [EvAdd (Solr Baseline.SOLR_URL "Hash_YourName")
       (csv_documents "Department" Sample.employees);
     EvAdd (Solr Baseline.SOLR_URL "Hash_1234")
       (csv_documents "Department" Sample.employees)] /\
  filter is_add (trace (Baseline.main (Sample.server Sample.employees) []))
  = [EvAdd (Solr Baseline.SOLR_URL "Hash_YourName")
       (csv_documents "Department" Sample.employees);
     EvAdd (Solr Baseline.SOLR_URL "Hash_1234")
       (csv_documents "Gender" Sample.employees)].
Proof. split; reflexivity. Qed.

(** * Further properties of the two files *)

(** ** Dicts built in insertion order *)

Section FreshKeys.
Context {K V : Type} (eqb : K -> K -> bool).

Lemma dict_set_fresh (k : K) (v : V) (d : list (K * V)) :
  (forall k', In k' (keys d) -> eqb k' k = false) ->
  dict_set eqb k v d = (d ++ [(k, v)])%list.
Proof.
  induction d as [|[k' v'] rest IH]; intros Hfresh; cbn; [reflexivity|].
  rewrite (Hfresh k' (or_introl eq_refl)). f_equal. apply IH.
  intros k'' Hin. apply Hfresh. right. exact Hin.
Qed.

(** Pairs whose keys are all different, also from those of the dict they
    are assigned to, are appended in their order. *)
Lemma fold_dict_set_fresh (pairs d : list (K * V)) :
  (forall k k', In k (keys (d ++ pairs)%list) ->
                In k' (keys (d ++ pairs)%list) ->
                eqb k k' = true -> k = k') ->
  NoDup (keys (d ++ pairs)%list) ->
  fold_left (fun d kv => dict_set eqb (fst kv) (snd kv) d) pairs d
  = (d ++ pairs)%list.
Proof.
  revert d. induction pairs as [|[k v] rest IH]; intros d Heq Hnd.
  - cbn. rewrite app_nil_r. reflexivity.
  - simpl fold_left. rewrite dict_set_fresh.
    + replace (d ++ (k, v) :: rest)%list with ((d ++ [(k, v)]) ++ rest)%list
        in Heq, Hnd |- * by (rewrite <- app_assoc; reflexivity).
      apply IH; assumption.
    + intros k' Hin. destruct (eqb k' k) eqn:Hk; [|reflexivity].
      exfalso. unfold keys in *. rewrite map_app in Heq, Hnd. cbn in Heq, Hnd.
      assert (k' = k) as ->.
      { apply Heq; [apply in_or_app; left; exact Hin
                   | apply in_or_app; right; left; reflexivity | exact Hk]. }
      apply NoDup_remove_2 in Hnd. apply Hnd. apply in_or_app. left.
      exact Hin.
Qed.

End FreshKeys.

Lemma dict_of_distinct (pairs : doc) :
  NoDup (keys pairs) -> dict_of okey_eqb pairs = pairs.
Proof.
  intros Hnd. unfold dict_of.
  rewrite (fold_dict_set_fresh okey_eqb pairs []); [reflexivity| |exact Hnd].
  intros k k' _ _ Hk. apply okey_eqb_spec. exact Hk.
Qed.

Lemma filter_all {A : Type} (f : A -> bool) (l : list A) :
  (forall a, In a l -> f a = true) -> filter f l = l.
Proof.
  induction l as [|a l IH]; intros H; cbn; [reflexivity|].
  rewrite (H a (or_introl eq_refl)). f_equal. apply IH.
  intros b Hb. apply H. right. exact Hb.
Qed.

Lemma NoDup_map_Some (l : list string) : NoDup l -> NoDup (map Some l).
Proof.
  induction 1 as [|a l Hnot Hnd IH]; cbn; constructor; [|exact IH].
  intros Hin. apply in_map_iff in Hin. destruct Hin as (b & Hb & Hin).
  injection Hb as ->. exact (Hnot Hin).
Qed.

Lemma in_firstn {A : Type} (n : nat) (l : list A) (x : A) :
  In x (firstn n l) -> In x l.
Proof.
  intros H. rewrite <- (firstn_skipn n l). apply in_or_app. left. exact H.
Qed.

Lemma in_skipn {A : Type} (n : nat) (l : list A) (x : A) :
  In x (skipn n l) -> In x l.
Proof.
  intros H. rewrite <- (firstn_skipn n l). apply in_or_app. right. exact H.
Qed.

(** ** More on the documents of a CSV file *)

(** Whatever the row, its keys are names of the header or [None]. *)
Lemma keys_row_dict_incl (fieldnames row : list string) (k : option string) :
  In k (keys (row_dict fieldnames row)) ->
  In k (map Some fieldnames) \/ k = None.
Proof.
  unfold row_dict.
  destruct (length fieldnames <? length row)%nat.
  - rewrite (keys_dict_set okey_eqb okey_eqb_spec),
      (keys_dict_of okey_eqb okey_eqb_spec), keys_combine.
    intros [->|Hin]; [right; reflexivity | left].
    exact (in_firstn _ _ _ Hin).
  - rewrite keys_fold_restval, (keys_dict_of okey_eqb okey_eqb_spec),
      keys_combine.
    intros [Hin|Hin]; left.
    + apply in_map_iff in Hin. destruct Hin as (x & <- & Hx).
      apply in_map. exact (in_skipn _ _ _ Hx).
    + exact (in_firstn _ _ _ Hin).
Qed.

(** A row as long as a header of distinct names becomes the row's cells
    under the header's names, in the header's order. *)
Lemma row_dict_regular (fieldnames row : list string) :
  NoDup fieldnames -> length row = length fieldnames ->
  row_dict fieldnames row = combine (map Some fieldnames) (map CStr row).
Proof.
  intros Hnd Hlen. unfold row_dict. rewrite Hlen, Nat.ltb_irrefl, skipn_all.
  cbn. apply dict_of_distinct.
  rewrite keys_combine, length_map, Hlen, <- (length_map Some), firstn_all.
  apply NoDup_map_Some. exact Hnd.
Qed.

(** X1: in every document built from every file, the excluded column is not
    a key. *)
Theorem excluded_column_is_never_a_key :
  forall (exclude_column : string) (rows : list (list string)),
    Forall (fun d => ~ In (Some exclude_column) (keys d))
      (csv_documents exclude_column rows).
Proof.
  intros x rows. apply Forall_forall. intros d Hd.
  unfold csv_documents in Hd. apply in_map_iff in Hd.
  destruct Hd as (r & <- & _). rewrite keys_drop_column.
  intros [_ Hne]. apply Hne. reflexivity.
Qed.

(** X2: excluding a column that the header does not name changes nothing:
    the documents are the reader's rows as they are. *)
Theorem absent_column_changes_nothing :
  forall (exclude_column : string) (fieldnames : list string)
         (data : list (list string)),
    ~ In exclude_column fieldnames ->
    csv_documents exclude_column (fieldnames :: data)
    = dict_reader (fieldnames :: data).
Proof.
  intros x f data Hx. unfold csv_documents.
  rewrite <- (map_id (dict_reader (f :: data))) at 2.
  apply map_ext_in. intros d Hd. unfold dict_reader in Hd.
  apply in_map_iff in Hd. destruct Hd as (row & <- & _).
  apply filter_all. intros [k v] Hkv. cbn.
  destruct (okey_eqb k (Some x)) eqn:Hk; [|reflexivity].
  apply okey_eqb_spec in Hk. subst k. exfalso.
  assert (In (Some x) (keys (row_dict f row))) as Hin
    by (exact (in_map fst _ _ Hkv)).
  destruct (keys_row_dict_incl _ _ _ Hin) as [H|H]; [|discriminate H].
  apply in_map_iff in H. destruct H as (y & Hy & Hin'). injection Hy as ->.
  exact (Hx Hin').
Qed.

Lemma absent_column_changes_nothing_witness :
  csv_documents "Salary" Sample.employees = dict_reader Sample.employees.
Proof.
  apply (absent_column_changes_nothing "Salary"
           ["Employee ID"; "Full Name"; "Department"; "Gender"]
           [["E02002"; "Kai Le"; "Engineering"; "Male"];
            ["E02003"; "Robert Patel"; "Sales"; "Male"]]).
  cbn. intros [H|[H|[H|[H|[]]]]]; discriminate H.
Defined.

(** X3: for a file whose header names are distinct and whose data rows all
    have as many fields as the header (a header of at least one name), the
    documents are, row by row and in the file's order, the cells of the row
    under the header's names, in the header's order, without the excluded
    column. *)
Theorem documents_of_a_rectangular_file :
  forall (exclude_column : string) (fieldnames : list string)
         (data : list (list string)),
    NoDup fieldnames -> fieldnames <> [] ->
    Forall (fun row => length row = length fieldnames) data ->
    csv_documents exclude_column (fieldnames :: data)
    = map (fun row =>
             drop_column exclude_column
               (combine (map Some fieldnames) (map CStr row)))
        data.
Proof.
  intros x f data Hnd Hne Hreg. unfold csv_documents, dict_reader.
  rewrite Forall_forall in Hreg.
  rewrite filter_all.
  - rewrite map_map. apply map_ext_in. intros row Hrow.
    rewrite (row_dict_regular f row Hnd (Hreg row Hrow)). reflexivity.
  - intros row Hrow. specialize (Hreg row Hrow).
    destruct row; [|reflexivity]. destruct f; [congruence | discriminate Hreg].
Qed.

Lemma documents_of_a_rectangular_file_witness :
  csv_documents "Department" Sample.employees
  = map (fun row =>
           drop_column "Department"
             (combine
                (map Some ["Employee ID"; "Full Name"; "Department"; "Gender"])
                (map CStr row)))
      [["E02002"; "Kai Le"; "Engineering"; "Male"];
       ["E02003"; "Robert Patel"; "Sales"; "Male"]].
Proof.
  apply (documents_of_a_rectangular_file "Department"
           ["Employee ID"; "Full Name"; "Department"; "Gender"]).
  - repeat constructor; cbn; intuition discriminate.
  - discriminate.
  - repeat constructor.
Defined.

(** ** The facet mapping *)






Lemma combine_trailing {A : Type} (n : nat) :
  forall (l : list A) (x : A),
    length l = (2 * n)%nat ->
    combine (evens (l ++ [x])) (odds (l ++ [x])) = combine (evens l) (odds l).
Proof.
  unfold odds. induction n as [|n IH]; intros l x Hlen.
  - destruct l; [reflexivity | discriminate Hlen].
  - destruct l as [|a [|b l]]; try (cbn in Hlen; lia).
    cbn in Hlen. assert (length l = (2 * n)%nat) as Hl by lia.
    specialize (IH l x Hl).
    change ((a :: b :: l) ++ [x])%list with (a :: b :: (l ++ [x]))%list.
    cbn [evens tl].
    destruct l as [|c l'].
    + reflexivity.
    + change ((c :: l') ++ [x])%list with (c :: (l' ++ [x]))%list in *.
      cbn [evens tl combine] in *.
      destruct l' as [|c' l'']; [cbn in Hl; lia|].
      change ((c' :: l'') ++ [x])%list with (c' :: (l'' ++ [x]))%list in *.
      cbn [evens tl combine] in *. f_equal.
      destruct l'' as [|c'' l3]; cbn in *; [reflexivity|].
      f_equal. injection IH as IH. exact IH.
Qed.



(** X5: a facet list of odd length gives the mapping of the list without
    its last element: a trailing value that has no count is dropped. *)
Theorem trailing_facet_value_is_dropped :
  forall (facet_counts : list json) (last : json),
    Nat.even (length facet_counts) = true ->
    department_facet (facet_json (JArr (facet_counts ++ [last])))
    = department_facet (facet_json (JArr facet_counts)).
Proof.
  intros l x Hev. apply Nat.even_spec in Hev. destruct Hev as [n Hn].
  unfold department_facet, facet_json. cbn.
  rewrite (combine_trailing n l x Hn). reflexivity.
Qed.

Lemma trailing_facet_value_is_dropped_witness :
  department_facet
    (facet_json (JArr ([JStr "Sales"; JInt 2] ++ [JStr "Engineering"])))
  = department_facet (facet_json (JArr [JStr "Sales"; JInt 2])).
Proof.
  apply (trailing_facet_value_is_dropped [JStr "Sales"; JInt 2]
           (JStr "Engineering")).
  reflexivity.
Defined.

(** X6: when the search succeeds but [results.facets] is a dict without
    [facet_fields] (what pysolr leaves when the answer has no facet
    counts), the baseline returns the failure string made of the
    [KeyError]'s text, the quoted key, and the refactor returns the empty
    mapping. *)
Theorem facet_without_facet_fields :
  forall (S : Type) (E : Env S) (self : Optimized.SolrClient)
         (core_name : string) (w w' : S) (r : results)
         (fields : list (string * json)),
    solr_search E (Solr (Optimized.base_url self) core_name) "*:*"
      [("facet", "on"); ("facet_field", "Department")] w = (w', inr r) ->
    res_facets r = JObj fields ->
    lookup "facet_fields" fields = None ->
    value (Optimized.get_department_facet E self core_name w)
    = Return (VDict []) /\
    (Optimized.base_url self = Baseline.SOLR_URL ->
     value (Baseline.getDepFacet E core_name w)
     = Return (VStr ("Failed to get department facet: "
                       ++ squote ++ "facet_fields" ++ squote))).
Proof.
  intros S E self core_name w w' r fields Hs Hf Hl. split.
  - unfold Optimized.get_department_facet. py_run. py_step Hs.
    rewrite Hf. unfold department_facet, subscript. rewrite Hl. reflexivity.
  - intros Hurl. rewrite Hurl in Hs.
    unfold Baseline.getDepFacet. py_run. py_step Hs.
    rewrite Hf. unfold department_facet, subscript. rewrite Hl. reflexivity.
Qed.

Lemma facet_without_facet_fields_witness :
  value (Optimized.get_department_facet Sample.facetless baseline_client
           "Hash_1234" [])
  = Return (VDict []) /\
  (Optimized.base_url baseline_client = Baseline.SOLR_URL ->
   value (Baseline.getDepFacet Sample.facetless "Hash_1234" [])
   = Return (VStr ("Failed to get department facet: "
                     ++ squote ++ "facet_fields" ++ squote))).
Proof.
  apply (facet_without_facet_fields (list string) Sample.facetless
           baseline_client "Hash_1234" [] [] (mkResults [] 0 (JObj [])) []);
    reflexivity.
Defined.

(** ** Failures as return values *)

(** X7: the test the baseline [main] applies to a result, a string that
    holds [Failed], fires on the result of the count, of the search and of
    the facet operation exactly when the operation failed inside: when the
    search request raised or, for the facet, when the facet list could not
    be read; and on the result of the delete of [main] exactly when the
    delete request raised. *)
Theorem failure_test_is_exact :
  forall (S : Type) (E : Env S) (w : S)
         (core_name column_name column_value : string),
    reported failure_reported (value (Baseline.getEmpCount E core_name w))
    = raised (snd (solr_search E (Solr Baseline.SOLR_URL core_name) "*:*"
                     [("rows", "0")] w)) /\
    reported failure_reported
      (value (Baseline.searchByColumn E core_name column_name column_value w))
    = raised (snd (solr_search E (Solr Baseline.SOLR_URL core_name)
                     (column_name ++ ":" ++ dquote ++ column_value ++ dquote)
                     [] w)) /\
    reported failure_reported (value (Baseline.getDepFacet E core_name w))
    = match snd (solr_search E (Solr Baseline.SOLR_URL core_name) "*:*"
                   [("facet", "on"); ("facet_field", "Department")] w) with
      | inl _ => true
      | inr r =>
          match department_facet (res_facets r) with
          | Raise _ => true
          | Return _ => false
          end
      end /\
    reported failed_in
      (value (Baseline.delEmpById E Baseline.v_nameCore "E02003" w))
    = is_some (snd (solr_delete E (Solr Baseline.SOLR_URL Baseline.v_nameCore)
                      "E02003" w)).
Proof.
  intros S E w core_name column_name column_value.
  split; [|split; [|split]].
  - unfold Baseline.getEmpCount. py_run.
    destruct (solr_search E _ _ _ w) as [w' [e|r]]; reflexivity.
  - unfold Baseline.searchByColumn. py_run.
    destruct (solr_search E _ _ _ w) as [w' [e|r]]; reflexivity.
  - unfold Baseline.getDepFacet. py_run.
    destruct (solr_search E _ _ _ w) as [w' [e|r]]; [reflexivity|].
    cbn [snd]. destruct (department_facet (res_facets r)); reflexivity.
  - unfold Baseline.delEmpById. py_run.
    destruct (solr_delete E _ _ w) as [w' [e|]]; reflexivity.
Qed.


(** ** What a success string vouches for *)

(** X9: create core returns the created status only when the exists check
    returned false and the CREATE request that followed was answered
    without an error status and with [success] in its JSON; the state it
    ends in is the server's state after that request. *)
Theorem created_status_is_sound :
  forall (S : Type) (E : Env S) (self : Optimized.SolrClient)
         (core_name : string) (w : S),
    value (Optimized.create_core E self core_name w)
    = Return ("Core " ++ core_name ++ " created successfully.") ->
    exists (w2 : S) (r : response) (j : json),
      value (Optimized.check_core_exists E self core_name w) = Return false /\
      requests_get E (Optimized.base_url self ++ "/admin/cores")
        (create_params core_name)
        (final (Optimized.check_core_exists E self core_name w))
      = (w2, inr r) /\
      raise_for_status r = Return tt /\
      response_json r = Return j /\
      py_in "success" j = Return true /\
      final (Optimized.create_core E self core_name w) = w2.
Proof.
  intros S E self core_name w.
  remember (Optimized.create_core E self core_name w) as o eqn:Ho.
  revert Ho. unfold Optimized.create_core. unfold bind at 1.
  destruct (Optimized.check_core_exists E self core_name w)
    as [w1 tr [[|]|e]]; cbn [value final trace].
  - intros -> H. cbn [value] in H. injection H as H.
    apply append_cancel_l in H. discriminate H.
  - py_run.
    destruct (requests_get E _ _ w1) as [w2 [e|r]] eqn:Hget; py_run.
    + destruct e as [msg [resp|]|msg|cls msg]; intros -> H; cbn in H;
        discriminate H.
    + destruct (raise_for_status r) as [[]|e] eqn:Hst; py_run.
      * destruct (response_json r) as [j|e] eqn:Hj; py_run.
        -- destruct (py_in "success" j) as [[|]|e] eqn:Hin; py_run.
           ++ intros -> _. exists w2, r, j. repeat split; assumption.
           ++ intros -> H. cbn in H. discriminate H.
           ++ destruct e as [msg [resp|]|msg|cls msg]; intros -> H;
                cbn in H; discriminate H.
        -- destruct e as [msg [resp|]|msg|cls msg]; intros -> H; cbn in H;
             discriminate H.
      * destruct e as [msg [resp|]|msg|cls msg]; intros -> H; cbn in H;
          discriminate H.
  - intros -> H. discriminate H.
Qed.

Lemma created_status_is_sound_witness :
  exists (w2 : list string) (r : response) (j : json),
    value (Optimized.check_core_exists (Sample.server Sample.employees)
             baseline_client "Hash_1234" []) = Return false /\
    requests_get (Sample.server Sample.employees)
      (Optimized.base_url baseline_client ++ "/admin/cores")
      (create_params "Hash_1234")
      (final (Optimized.check_core_exists (Sample.server Sample.employees)
                baseline_client "Hash_1234" []))
    = (w2, inr r) /\
    raise_for_status r = Return tt /\
    response_json r = Return j /\
    py_in "success" j = Return true /\
    final (Optimized.create_core (Sample.server Sample.employees)
             baseline_client "Hash_1234" []) = w2.
Proof.
  apply (created_status_is_sound (list string)
           (Sample.server Sample.employees) baseline_client "Hash_1234" []).
  reflexivity.
Defined.

(** X10: index data returns its success string only when the file was
    opened and read to its end and the server accepted the batch built from
    its rows; this holds for the refactor on any file and for the baseline
    on its fixed file. *)
Theorem indexed_status_is_sound :
  forall (S : Type) (E : Env S) (self : Optimized.SolrClient)
         (core_name exclude_column csv_file : string) (w : S),
    (value (Optimized.index_data E self core_name exclude_column csv_file w)
     = Return ("Data indexed into " ++ core_name ++ ", excluding column "
                 ++ exclude_column) ->
     exists (w1 w2 : S) (rows : list (list string)),
       open_file E csv_file w = (w1, inr (mkFile rows None)) /\
       solr_add E (Solr (Optimized.base_url self) core_name)
         (csv_documents exclude_column rows) w1 = (w2, None)) /\
    (value (Baseline.indexData E core_name exclude_column w)
     = Return ("Data indexed into " ++ core_name ++ ", excluding column "
                 ++ exclude_column) ->
     exists (w1 w2 : S) (rows : list (list string)),
       open_file E "employee_data.csv" w = (w1, inr (mkFile rows None)) /\
       solr_add E (Solr Baseline.SOLR_URL core_name)
         (csv_documents exclude_column rows) w1 = (w2, None)).
Proof.
  intros S E self core_name exclude_column csv_file w. split.
  - unfold Optimized.index_data. py_run.
    destruct (open_file E csv_file w) as [w1 [e|[rows [e|]]]]; py_run.
    + destruct e; intros H; cbn in H; discriminate H.
    + destruct e; intros H; cbn in H; discriminate H.
    + destruct (solr_add E _ _ w1) as [w2 [e|]] eqn:Hadd; py_run.
      * destruct e; intros H; cbn in H; discriminate H.
      * intros _. exists w1, w2, rows. split; [reflexivity | exact Hadd].
  - unfold Baseline.indexData. py_run.
    destruct (open_file E _ w) as [w1 [e|[rows [e|]]]]; py_run.
    + destruct e; intros H; cbn in H; discriminate H.
    + destruct e; intros H; cbn in H; discriminate H.
    + destruct (solr_add E _ _ w1) as [w2 [e|]] eqn:Hadd; py_run.
      * destruct e; intros H; cbn in H; discriminate H.
      * intros _. exists w1, w2, rows. split; [reflexivity | exact Hadd].
Qed.

Lemma indexed_status_is_sound_witness :
  exists (w1 w2 : list string) (rows : list (list string)),
    open_file (Sample.server Sample.employees) "employee_data.csv" []
    = (w1, inr (mkFile rows None)) /\
    solr_add (Sample.server Sample.employees)
      (Solr (Optimized.base_url baseline_client) "Hash_1234")
      (csv_documents "Gender" rows) w1 = (w2, None).
Proof.
  apply (proj1 (indexed_status_is_sound (list string)
                  (Sample.server Sample.employees) baseline_client
                  "Hash_1234" "Gender" "employee_data.csv" [])).
  reflexivity.
Defined.

Lemma create_core_unacknowledged {S : Type} (E : Env S)
  (self : Optimized.SolrClient) (core_name : string) (w w1 w2 : S)
  (r : response) (fields : list (string * json)) :
  answers_status E (Optimized.base_url self) core_name w w1 false ->
  requests_get E (Optimized.base_url self ++ "/admin/cores")
    (create_params core_name) w1 = (w2, inr r) ->
  raise_for_status r = Return tt ->
  json_body r = JsonOk (JObj fields) ->
  has_key "success" fields = false ->
  Optimized.create_core E self core_name w
  = mkOutcome w2
      [EvGet (status_url (Optimized.base_url self) core_name) [];
       EvGet (Optimized.base_url self ++ "/admin/cores")
         (create_params core_name)]
      (Return ("Failed to create core " ++ core_name ++ ". Response: "
                 ++ text r)).
Proof.
  intros Hs Hget Hst Hj Hk.
  unfold Optimized.create_core. unfold bind at 1.
  rewrite (check_core_exists_answered E self _ _ _ _ Hs).
  py_run. py_step Hget. py_step Hst.
  unfold response_json. py_step Hj. unfold py_in. py_step Hk.
  reflexivity.
Qed.

(** X11: when the core is reported absent and the CREATE request is
    answered without an error status by a JSON object that has no
    [success] entry, create core returns the failure string that quotes the
    response text, although the request was accepted; the CREATE request
    was issued. *)
Theorem create_without_success_entry :
  forall (S : Type) (E : Env S) (self : Optimized.SolrClient)
         (core_name : string) (w w1 w2 : S) (r : response)
         (fields : list (string * json)),
    answers_status E (Optimized.base_url self) core_name w w1 false ->
    requests_get E (Optimized.base_url self ++ "/admin/cores")
      (create_params core_name) w1 = (w2, inr r) ->
    raise_for_status r = Return tt ->
    json_body r = JsonOk (JObj fields) ->
    has_key "success" fields = false ->
    value (Optimized.create_core E self core_name w)
    = Return ("Failed to create core " ++ core_name ++ ". Response: "
                ++ text r) /\
    final (Optimized.create_core E self core_name w) = w2 /\
    existsb is_create (trace (Optimized.create_core E self core_name w))
    = true.
Proof.
  intros S E self core_name w w1 w2 r fields Hs Hget Hst Hj Hk.
  rewrite (create_core_unacknowledged E self core_name w w1 w2 r fields
             Hs Hget Hst Hj Hk).
  split; [|split]; reflexivity.
Qed.

Lemma create_without_success_entry_witness :
  value (Optimized.create_core Sample.terse baseline_client "Hash_1234" [])
  = Return ("Failed to create core " ++ "Hash_1234" ++ ". Response: "
              ++ "{core}") /\
  final (Optimized.create_core Sample.terse baseline_client "Hash_1234" [])
  = ["Hash_1234"] /\
  existsb is_create
    (trace (Optimized.create_core Sample.terse baseline_client "Hash_1234" []))
  = true.
Proof.
  apply (create_without_success_entry (list string) Sample.terse
           baseline_client "Hash_1234" [] [] ["Hash_1234"]
           (mkResponse 200 "OK" (Baseline.SOLR_URL ++ "/admin/cores") "{core}"
              (JsonOk (JObj [("responseHeader", JObj [("status", JInt 0)]);
                             ("core", JStr "Hash_1234")])))
           [("responseHeader", JObj [("status", JInt 0)]);
            ("core", JStr "Hash_1234")]).
  - exists (Sample.ok_response (status_url Baseline.SOLR_URL "Hash_1234")
              (Sample.status_body [])).
    eexists. eexists. repeat split.
  - reflexivity.
  - reflexivity.
  - reflexivity.
  - reflexivity.
Defined.

(** ** The steps of the refactored driver *)

Lemma bind_outcome {S A B} (m : M S A) (f : A -> M S B) (s : S) (a : A) :
  value (m s) = Return a ->
  bind m f s
  = mkOutcome (final (f a (final (m s))))
      (trace (m s) ++ trace (f a (final (m s))))
      (value (f a (final (m s)))).
Proof. intros H. unfold bind. rewrite H. reflexivity. Qed.

Section Steps.
Context {S : Type} (E : Env S) (self : Optimized.SolrClient).

Lemma delete_employee_by_id_step (c id : string) (w : S) :
  trace (Optimized.delete_employee_by_id E self c id w)
  = [EvDelete (Solr (Optimized.base_url self) c) id]
  /\ exists v, value (Optimized.delete_employee_by_id E self c id w)
               = Return v.
Proof.
  unfold Optimized.delete_employee_by_id. py_run.
  destruct (solr_delete E _ _ w) as [w1 [e|]]; split;
    first [reflexivity | eexists; reflexivity].
Qed.

Lemma get_employee_count_step (c : string) (w : S) :
  trace (Optimized.get_employee_count E self c w)
  = [EvSearch (Solr (Optimized.base_url self) c) "*:*" [("rows", "0")]]
  /\ exists v, value (Optimized.get_employee_count E self c w) = Return v.
Proof.
  unfold Optimized.get_employee_count. py_run.
  destruct (solr_search E _ _ _ w) as [w1 [e|r]]; split;
    first [reflexivity | eexists; reflexivity].
Qed.

Lemma search_by_column_step (c f v : string) (w : S) :
  trace (Optimized.search_by_column E self c f v w)
  = [EvSearch (Solr (Optimized.base_url self) c)
       (f ++ ":" ++ dquote ++ v ++ dquote) []]
  /\ exists docs, value (Optimized.search_by_column E self c f v w)
                  = Return docs.
Proof.
  unfold Optimized.search_by_column. py_run.
  destruct (solr_search E _ _ _ w) as [w1 [e|r]]; split;
    first [reflexivity | eexists; reflexivity].
Qed.

Lemma get_department_facet_step (c : string) (w : S) :
  trace (Optimized.get_department_facet E self c w)
  = [EvSearch (Solr (Optimized.base_url self) c) "*:*"
       [("facet", "on"); ("facet_field", "Department")]]
  /\ exists v, value (Optimized.get_department_facet E self c w) = Return v.
Proof.
  unfold Optimized.get_department_facet. py_run.
  destruct (solr_search E _ _ _ w) as [w1 [e|r]];
    [split; [reflexivity | eexists; reflexivity]|].
  destruct (department_facet (res_facets r)); split;
    first [reflexivity | eexists; reflexivity].
Qed.

End Steps.

(** X12: the operations on a core always run to their end, whatever fails
    inside them: for every world, [perform_operations] issues exactly four
    requests, the delete of the configured id, the count, the search for
    the configured department and the facet search, in this order, and
    returns. *)
Theorem perform_operations_runs_four_steps :
  forall (S : Type) (E : Env S) (self : Optimized.SolrClient)
         (core_name : string) (w : S),
    let solr := Solr (Optimized.base_url self) core_name in
    trace (Optimized.perform_operations E self core_name w)
    = [EvDelete solr
         (Optimized.getenv_default E "EMPLOYEE_ID_TO_DELETE" "E02003");
       EvSearch solr "*:*" [("rows", "0")];
       EvSearch solr
         ("Department" ++ ":" ++ dquote
            ++ Optimized.getenv_default E "SEARCH_DEPARTMENT" "IT" ++ dquote)
         [];
       EvSearch solr "*:*" [("facet", "on"); ("facet_field", "Department")]]
    /\ value (Optimized.perform_operations E self core_name w) = Return tt.
Proof.
  intros S E self core_name w solr. subst solr.
  unfold Optimized.perform_operations.
  destruct (delete_employee_by_id_step E self core_name
              (Optimized.getenv_default E "EMPLOYEE_ID_TO_DELETE" "E02003") w)
    as (Ht1 & v1 & Hv1).
  rewrite (bind_outcome _ _ w v1 Hv1). cbn [trace value]. rewrite Ht1.
  set (w1 := final (Optimized.delete_employee_by_id E self core_name _ w)).
  destruct (get_employee_count_step E self core_name w1) as (Ht2 & v2 & Hv2).
  rewrite (bind_outcome _ _ w1 v2 Hv2). cbn [trace value]. rewrite Ht2.
  set (w2 := final (Optimized.get_employee_count E self core_name w1)).
  destruct (search_by_column_step E self core_name "Department"
              (Optimized.getenv_default E "SEARCH_DEPARTMENT" "IT") w2)
    as (Ht3 & v3 & Hv3).
  rewrite (bind_outcome _ _ w2 v3 Hv3). cbn [trace value]. rewrite Ht3.
  set (w3 := final (Optimized.search_by_column E self core_name _ _ w2)).
  destruct (get_department_facet_step E self core_name w3)
    as (Ht4 & v4 & Hv4).
  rewrite (bind_outcome _ _ w3 v4 Hv4). cbn [trace value]. rewrite Ht4.
  split; reflexivity.
Qed.

Lemma index_data_missing_outcome {S : Type} (E : Env S)
  (self : Optimized.SolrClient) (c x csv_file msg : string) (w w' : S) :
  open_file E csv_file w = (w', inl (FileNotFoundError msg)) ->
  Optimized.index_data E self c x csv_file w
  = mkOutcome w' []
      (Return ("Failed to index data: CSV file " ++ csv_file ++ " not found")).
Proof.
  intros Hopen. unfold Optimized.index_data. py_run. py_step Hopen.
  reflexivity.
Qed.

(** X13: when the CSV file cannot be opened because it does not exist, the
    indexing step of the driver issues no request and opens nothing, for
    however many cores, and returns. *)
Theorem missing_file_indexes_nothing :
  forall (S : Type) (E : Env S) (self : Optimized.SolrClient)
         (csv_file : string) (core_configs : list (string * string)),
    (forall w, exists w' msg,
        open_file E csv_file w = (w', inl (FileNotFoundError msg))) ->
    forall w,
      trace (Optimized.index_data_to_cores E self core_configs csv_file w) = []
      /\ value (Optimized.index_data_to_cores E self core_configs csv_file w)
         = Return tt.
Proof.
  intros S E self csv_file core_configs Hmissing.
  unfold Optimized.index_data_to_cores.
  induction core_configs as [|[c x] rest IH]; intros w.
  - split; reflexivity.
  - destruct (Hmissing w) as (w' & msg & Hopen).
    destruct (IH w') as [Htr Hv].
    assert (bind (Optimized.index_data E self c x csv_file)
              (fun _ => ret tt) w
            = mkOutcome w' [] (Return tt)) as Hstep.
    { unfold bind.
      rewrite (index_data_missing_outcome E self c x csv_file msg w w' Hopen).
      reflexivity. }
    cbn [for_each].
    rewrite (bind_outcome
               (bind (Optimized.index_data E self c x csv_file)
                  (fun _ => ret tt)) _ w tt)
      by (rewrite Hstep; reflexivity).
    rewrite Hstep. cbn [value final trace app]. rewrite Htr, Hv.
    split; reflexivity.
Qed.

Lemma missing_file_indexes_nothing_witness :
  trace (Optimized.index_data_to_cores Sample.fileless baseline_client
           [("Hash_YourName", "Department"); ("Hash_1234", "Department")]
           "employee_data.csv" []) = []
  /\ value (Optimized.index_data_to_cores Sample.fileless baseline_client
              [("Hash_YourName", "Department"); ("Hash_1234", "Department")]
              "employee_data.csv" []) = Return tt.
Proof.
  apply (missing_file_indexes_nothing (list string) Sample.fileless
           baseline_client "employee_data.csv"
           [("Hash_YourName", "Department"); ("Hash_1234", "Department")]
           (fun w => ex_intro _ w (ex_intro _ _ eq_refl)) []).
Defined.

(** ** What can end [main] *)

(** X14: a run of the baseline [main] returns when its connectivity check
    returns and, if the check returned [True], its two create steps and its
    two index steps return, each in the state the run reaches it in: no
    failure inside count, delete, search or facet can end the run. *)
Theorem baseline_main_returns :
  forall (S : Type) (E : Env S) (w : S),
    let w1 := final (Baseline.check_solr_connection E w) in
    let w2 := final (Baseline.createCore E Baseline.v_nameCore w1) in
    let w3 := final (Baseline.createCore E Baseline.v_phoneCore w2) in
    let w4 := final (Baseline.getEmpCount E Baseline.v_nameCore w3) in
    let w5 :=
      final (Baseline.indexData E Baseline.v_nameCore "Department" w4) in
    returned (value (Baseline.check_solr_connection E w)) = true ->
    (value (Baseline.check_solr_connection E w) = Return true ->
     returned (value (Baseline.createCore E Baseline.v_nameCore w1)) = true /\
     returned (value (Baseline.createCore E Baseline.v_phoneCore w2)) = true /\
     returned
       (value (Baseline.indexData E Baseline.v_nameCore "Department" w4))
     = true /\
     returned (value (Baseline.indexData E Baseline.v_phoneCore "Gender" w5))
     = true) ->
    value (Baseline.main E w) = Return tt.
Proof.
  intros S E w w1 w2 w3 w4 w5 Hcheck Hsteps.
  apply returned_value in Hcheck. destruct Hcheck as [connected Hcheck].
  unfold Baseline.main.
  rewrite (bind_value_return _ _ w connected Hcheck).
  destruct connected; cbn [negb]; [|reflexivity].
  destruct (Hsteps Hcheck) as (Hc1 & Hc2 & Hi1 & Hi2).
  apply returned_value in Hc1, Hc2, Hi1, Hi2.
  destruct Hc1 as [s1 Hc1]. destruct Hc2 as [s2 Hc2].
  destruct Hi1 as [s3 Hi1]. destruct Hi2 as [s4 Hi2].
  destruct (getEmpCount_returns E Baseline.v_nameCore w3) as [n Hn].
  fold w1. rewrite (bind_value_return _ _ w1 s1 Hc1).
  fold w2. rewrite (bind_value_return _ _ w2 s2 Hc2).
  fold w3. rewrite (bind_value_return _ _ w3 n Hn).
  fold w4. rewrite (bind_value_return _ _ w4 s3 Hi1).
  fold w5. rewrite (bind_value_return _ _ w5 s4 Hi2).
  match goal with
  | |- value (?m ?s) = _ =>
      assert (returns m) as Htail; [|destruct (Htail s) as [[] Hv]; exact Hv]
  end.
  apply returns_bind; [apply delEmpById_returns | intros _].
  apply returns_bind; [apply getEmpCount_returns | intros _].
  apply returns_bind; [apply searchByColumn_returns | intros _].
  apply returns_bind; [apply searchByColumn_returns | intros _].
  apply returns_bind; [apply searchByColumn_returns | intros _].
  apply returns_bind; [apply getDepFacet_returns | intros _].
  apply returns_bind; [apply getDepFacet_returns | intros _].
  apply returns_ret.
Qed.

Lemma baseline_main_returns_witness :
  value (Baseline.main (Sample.server Sample.employees) []) = Return tt.
Proof.
  apply (baseline_main_returns (list string)
           (Sample.server Sample.employees) [] eq_refl).
  intros _. split; [reflexivity|]. split; [reflexivity|].
  split; reflexivity.
Defined.

(** X15: a run of the refactored [main] returns when its connectivity check
    returns and, if the check returned [True], the setup step that creates
    the cores returns in the state the check leaves: no failure inside the
    index step or the operations on a core can end the run. *)
Theorem refactored_main_returns :
  forall (S : Type) (E : Env S) (w : S),
    let client :=
      Optimized.mkClient
        (Optimized.getenv_default E "SOLR_URL" "http://localhost:8983/solr") in
    let core_names :=
      split_comma
        (Optimized.getenv_default E "CORE_NAMES" "Hash_YourName,Hash_1234") in
    returned (value (Optimized.check_connection E client w)) = true ->
    (value (Optimized.check_connection E client w) = Return true ->
     returned
       (value (Optimized.setup_cores E client core_names
                 (final (Optimized.check_connection E client w)))) = true) ->
    value (Optimized.main E w) = Return tt.
Proof.
  intros S E w client core_names Hcheck Hsetup.
  apply returned_value in Hcheck. destruct Hcheck as [connected Hcheck].
  unfold Optimized.main. fold client. fold core_names.
  rewrite (bind_value_return _ _ w connected Hcheck).
  destruct connected; cbn [negb]; [|reflexivity].
  specialize (Hsetup Hcheck). apply returned_value in Hsetup.
  destruct Hsetup as [[] Hsetup].
  rewrite (bind_value_return _ _ _ tt Hsetup).
  match goal with
  | |- value (?m ?s) = _ =>
      assert (returns m) as Htail; [|destruct (Htail s) as [[] Hv]; exact Hv]
  end.
  apply returns_bind; [apply index_data_to_cores_returns|].
  intros _. apply returns_for_each. intros c.
  apply perform_operations_returns.
Qed.

Lemma refactored_main_returns_witness :
  value (Optimized.main (Sample.server Sample.employees) []) = Return tt.
Proof.
  apply (refactored_main_returns (list string)
           (Sample.server Sample.employees) [] eq_refl).
  intros _. reflexivity.
Defined.

(** ** The connectivity check *)

Lemma raise_for_status_error (r : response) :
  error_status r = true -> exists msg,
    raise_for_status r = Raise (RequestException msg (Some r)).
Proof.
  unfold error_status, raise_for_status. intros H.
  destruct ((400 <=? status_code r) && (status_code r <? 500)) eqn:H4;
    [eexists; reflexivity|].
  destruct ((500 <=? status_code r) && (status_code r <? 600)) eqn:H5;
    [eexists; reflexivity|].
  exfalso. apply andb_true_iff in H. destruct H as [Ha Hb].
  apply andb_false_iff in H4. apply andb_false_iff in H5.
  rewrite Z.leb_le in Ha. rewrite Z.ltb_lt in Hb.
  rewrite Z.leb_gt, Z.ltb_ge in H4, H5. lia.
Qed.

Lemma raise_for_status_ok (r : response) :
  error_status r = false -> raise_for_status r = Return tt.
Proof.
  unfold error_status, raise_for_status. intros H.
  apply andb_false_iff in H. rewrite Z.leb_gt, Z.ltb_ge in H.
  destruct ((400 <=? status_code r) && (status_code r <? 500)) eqn:H4.
  { apply andb_true_iff in H4. rewrite Z.leb_le, Z.ltb_lt in H4. lia. }
  destruct ((500 <=? status_code r) && (status_code r <? 600)) eqn:H5.
  { apply andb_true_iff in H5. rewrite Z.leb_le, Z.ltb_lt in H5. lia. }
  reflexivity.
Qed.

(** X16: when the status request is answered at all, the connectivity check
    returns, and its result is decided by the status code alone: [False]
    for a code from 400 to 599, [True] for every other code, a redirect or
    an informational code included. *)
Theorem connection_check_follows_status :
  forall (S : Type) (E : Env S) (self : Optimized.SolrClient) (w w' : S)
         (r : response),
    requests_get E
      (Optimized.base_url self ++ "/admin/cores?action=STATUS&wt=json") [] w
    = (w', inr r) ->
    value (Optimized.check_connection E self w)
    = Return (negb (error_status r)) /\
    (Optimized.base_url self = Baseline.SOLR_URL ->
     value (Baseline.check_solr_connection E w)
     = Return (negb (error_status r))).
Proof.
  intros S E self w w' r Hget.
  assert (value (Optimized.check_connection E self w)
          = Return (negb (error_status r))) as Hopt.
  { unfold Optimized.check_connection. py_run. py_step Hget.
    destruct (error_status r) eqn:Hs.
    - destruct (raise_for_status_error r Hs) as [msg ->]. reflexivity.
    - rewrite (raise_for_status_ok r Hs). reflexivity. }
  split; [exact Hopt|].
  intros Hurl. destruct self as [base]. cbn in Hurl. subst base. exact Hopt.
Qed.

Lemma connection_check_follows_status_witness :
  value (Optimized.check_connection Sample.erroring baseline_client [])
  = Return false /\
  (Optimized.base_url baseline_client = Baseline.SOLR_URL ->
   value (Baseline.check_solr_connection Sample.erroring []) = Return false).
Proof.
  apply (connection_check_follows_status (list string) Sample.erroring
           baseline_client [] []
           (Sample.unavailable_response
              (Baseline.SOLR_URL ++ "/admin/cores?action=STATUS&wt=json"))).
  reflexivity.
Defined.

(** X17: when the connectivity check returns [False], both drivers stop at
    once: the run consists of the requests of the check alone, nothing is
    created, indexed, deleted or searched, and [main] returns normally. *)
Theorem failed_check_ends_main :
  forall (S : Type) (E : Env S) (w : S),
    (value (Baseline.check_solr_connection E w) = Return false ->
     Baseline.main E w
     = mkOutcome (final (Baseline.check_solr_connection E w))
         (trace (Baseline.check_solr_connection E w)) (Return tt)) /\
    (let client :=
       Optimized.mkClient
         (Optimized.getenv_default E "SOLR_URL" "http://localhost:8983/solr")
     in
     value (Optimized.check_connection E client w) = Return false ->
     Optimized.main E w
     = mkOutcome (final (Optimized.check_connection E client w))
         (trace (Optimized.check_connection E client w)) (Return tt)).
Proof.
  intros S E w. split.
  - apply main_returns_early.
  - intros client H. unfold Optimized.main. fold client. unfold bind at 1.
    rewrite H. cbn. rewrite app_nil_r. reflexivity.
Qed.

Lemma failed_check_ends_main_witness :
  Baseline.main Sample.erroring []
  = mkOutcome []
      [EvGet (Baseline.SOLR_URL ++ "/admin/cores?action=STATUS&wt=json") []]
      (Return tt) /\
  Optimized.main Sample.erroring []
  = mkOutcome []
      [EvGet (Baseline.SOLR_URL ++ "/admin/cores?action=STATUS&wt=json") []]
      (Return tt).
Proof.
  split.
  - apply (proj1 (failed_check_ends_main (list string) Sample.erroring [])).
    reflexivity.
  - apply (proj2 (failed_check_ends_main (list string) Sample.erroring [])).
    reflexivity.
Defined.

(** ** The configuration of the refactored driver *)

Section Entries.
Context {K V : Type} (eqb : K -> K -> bool).
Hypothesis eqb_spec : forall a b, eqb a b = true <-> a = b.

Lemma entry_of_dict_set (k0 : K) (v0 : V) (d : list (K * V)) (kv : K * V) :
  In kv (dict_set eqb k0 v0 d) -> kv = (k0, v0) \/ In kv d.
Proof.
  induction d as [|[k' v'] rest IH]; cbn.
  - intros [<-|[]]. left. reflexivity.
  - destruct (eqb k' k0) eqn:Hk; cbn.
    + apply eqb_spec in Hk. subst k'.
      intros [<-|H]; [left; reflexivity | right; right; exact H].
    + intros [<-|H]; [right; left; reflexivity|].
      destruct (IH H) as [Hv|Hin]; [left; exact Hv | right; right; exact Hin].
Qed.

Lemma entry_of_fold (pairs d : list (K * V)) (kv : K * V) :
  In kv (fold_left (fun d kv => dict_set eqb (fst kv) (snd kv) d) pairs d) ->
  In kv pairs \/ In kv d.
Proof.
  revert d. induction pairs as [|[k0 v0] rest IH]; intros d.
  - intros H. right. exact H.
  - simpl fold_left. intros H. destruct (IH _ H) as [Hin|Hin].
    + left. right. exact Hin.
    + destruct (entry_of_dict_set _ _ _ _ Hin) as [->|Hd].
      * left. left. reflexivity.
      * right. exact Hd.
Qed.

Lemma NoDup_dict_set (k0 : K) (v0 : V) (d : list (K * V)) :
  NoDup (keys d) -> NoDup (keys (dict_set eqb k0 v0 d)).
Proof.
  induction d as [|[k' v'] rest IH]; cbn; intros Hnd.
  - constructor; [intros [] | constructor].
  - inversion Hnd as [|x l Hnot Hrest]; subst.
    destruct (eqb k' k0) eqn:Hk; cbn.
    + constructor; assumption.
    + constructor; [|apply IH; exact Hrest].
      fold (keys (dict_set eqb k0 v0 rest)).
      rewrite (keys_dict_set eqb eqb_spec). intros [->|Hin].
      * assert (eqb k0 k0 = true) as Hrefl by (apply eqb_spec; reflexivity).
        congruence.
      * exact (Hnot Hin).
Qed.

Lemma NoDup_fold (pairs d : list (K * V)) :
  NoDup (keys d) ->
  NoDup (keys (fold_left (fun d kv => dict_set eqb (fst kv) (snd kv) d)
                 pairs d)).
Proof.
  revert d. induction pairs as [|[k0 v0] rest IH]; intros d Hnd;
    [exact Hnd|].
  simpl fold_left. apply IH. apply NoDup_dict_set. exact Hnd.
Qed.

End Entries.

(** X18: the per-core configuration of the refactored [main] has exactly
    one entry for each distinct core name, however often the name is
    listed, and the entry of a core is the value of its own environment
    variable, the core name upper-cased by the interpreter's [str.upper]
    followed by [_EXCLUDE_COLUMN], or [Department] when that variable is
    not set. *)
Theorem core_configs_entries :
  forall (S : Type) (E : Env S) (core_names : list string)
         (core_name column : string),
    (In (core_name, column) (Optimized.core_configs E core_names) <->
     In core_name core_names /\
     column = Optimized.getenv_default E
                (str_upper E core_name ++ "_EXCLUDE_COLUMN") "Department") /\
    NoDup (keys (Optimized.core_configs E core_names)).
Proof.
  intros S E core_names c x. split; [split|].
  - intros Hin. unfold Optimized.core_configs, dict_of in Hin.
    apply (entry_of_fold String.eqb String.eqb_eq) in Hin.
    destruct Hin as [Hin|[]]. apply in_map_iff in Hin.
    destruct Hin as (c' & Heq & Hc'). injection Heq as -> <-.
    split; [exact Hc' | reflexivity].
  - intros [Hc ->].
    destruct (core_configs_covers E core_names c Hc) as [x Hx].
    assert (Hx' := Hx). unfold Optimized.core_configs, dict_of in Hx'.
    apply (entry_of_fold String.eqb String.eqb_eq) in Hx'.
    destruct Hx' as [Hin|[]]. apply in_map_iff in Hin.
    destruct Hin as (c' & Heq & _). injection Heq as -> <-. exact Hx.
  - unfold Optimized.core_configs, dict_of.
    apply (NoDup_fold String.eqb String.eqb_eq). constructor.
Qed.

(** ** The list of core names *)

Lemma split_go_cons (cur s : string) :
  exists name rest, split_go cur s = name :: rest.
Proof.
  revert cur. induction s as [|c s IH]; intros cur; cbn.
  - eexists. eexists. reflexivity.
  - destruct (Ascii.eqb c ","); [eexists; eexists; reflexivity | apply IH].
Qed.

Lemma append_assoc (a b c : string) : (a ++ b) ++ c = a ++ b ++ c.
Proof. induction a as [|x a IH]; cbn; [reflexivity|]. f_equal. exact IH. Qed.

Lemma append_empty_r (a : string) : a ++ EmptyString = a.
Proof. induction a as [|x a IH]; cbn; [reflexivity|]. f_equal. exact IH. Qed.

Lemma join_split_go (cur s : string) :
  join_comma (split_go cur s) = cur ++ s.
Proof.
  revert cur. induction s as [|c s IH]; intros cur; cbn [split_go].
  - cbn. rewrite append_empty_r. reflexivity.
  - destruct (Ascii.eqb c ","%char) eqn:Hc.
    + apply Ascii.eqb_eq in Hc. subst c.
      destruct (split_go_cons EmptyString s) as (name & rest & Hs).
      specialize (IH EmptyString). rewrite Hs in IH |- *.
      change (join_comma (cur :: name :: rest))
        with (cur ++ "," ++ join_comma (name :: rest)).
      rewrite IH. reflexivity.
    + rewrite IH, append_assoc. reflexivity.
Qed.

Lemma split_go_name (name cur : string) :
  no_comma name = true -> split_go cur name = [cur ++ name].
Proof.
  revert cur. induction name as [|c name IH]; intros cur Hn; cbn.
  - rewrite append_empty_r. reflexivity.
  - cbn in Hn. apply andb_true_iff in Hn. destruct Hn as [Hc Hn].
    apply negb_true_iff in Hc. rewrite Hc, (IH _ Hn), append_assoc.
    reflexivity.
Qed.

Lemma split_go_name_comma (name cur s : string) :
  no_comma name = true ->
  split_go cur (name ++ "," ++ s) = (cur ++ name) :: split_go EmptyString s.
Proof.
  revert cur. induction name as [|c name IH]; intros cur Hn; cbn.
  - rewrite append_empty_r. reflexivity.
  - cbn in Hn. apply andb_true_iff in Hn. destruct Hn as [Hc Hn].
    apply negb_true_iff in Hc. rewrite Hc.
    change (split_go (cur ++ String c EmptyString)
              (name ++ "," ++ s)
            = (cur ++ String c name) :: split_go EmptyString s).
    rewrite (IH _ Hn), append_assoc. reflexivity.
Qed.

(** X19: splitting the value of [CORE_NAMES] at its commas loses nothing
    and invents nothing: the names joined by commas are the value again,
    there is always at least one name (the empty name for an empty value),
    and a value written as names without commas joined by commas splits
    into exactly these names. *)
Theorem core_names_round_trip :
  forall (names_value : string) (name : string) (names : list string),
    join_comma (split_comma names_value) = names_value /\
    split_comma names_value <> [] /\
    (forallb no_comma (name :: names) = true ->
     split_comma (join_comma (name :: names)) = name :: names).
Proof.
  intros v name names. split; [|split].
  - apply (join_split_go EmptyString v).
  - unfold split_comma.
    destruct (split_go_cons EmptyString v) as (n & rest & ->). discriminate.
  - unfold split_comma. revert name.
    induction names as [|n2 rest IH]; intros name Hall.
    + cbn in Hall. rewrite andb_true_r in Hall. cbn [join_comma].
      apply (split_go_name name EmptyString Hall).
    + cbn [forallb] in Hall. apply andb_true_iff in Hall.
      destruct Hall as [Hname Hrest].
      cbn [join_comma].
      rewrite (split_go_name_comma name EmptyString _ Hname).
      cbn [append]. f_equal. apply IH. exact Hrest.
Qed.

Lemma core_names_round_trip_witness :
  join_comma (split_comma "Hash_YourName,Hash_1234")
  = "Hash_YourName,Hash_1234" /\
  split_comma "Hash_YourName,Hash_1234" <> [] /\
  (forallb no_comma ["Hash_YourName"; "Hash_1234"] = true ->
   split_comma (join_comma ["Hash_YourName"; "Hash_1234"])
   = ["Hash_YourName"; "Hash_1234"]).
Proof.
  apply (core_names_round_trip "Hash_YourName,Hash_1234" "Hash_YourName"
           ["Hash_1234"]).
Defined.

(** X20: when the CSV file can be opened and read, the indexing step of the
    driver sends exactly one batch for each entry of the configuration,
    whether or not the server accepts the batches. *)
Theorem one_batch_per_entry :
  forall (S : Type) (E : Env S) (self : Optimized.SolrClient)
         (csv_file : string) (core_configs : list (string * string)),
    (forall w, exists w' rows,
        open_file E csv_file w = (w', inr (mkFile rows None))) ->
    forall w,
      length (filter is_add
                (trace (Optimized.index_data_to_cores E self core_configs
                          csv_file w)))
      = length core_configs.
Proof.
  intros S E self csv_file core_configs Hopen.
  unfold Optimized.index_data_to_cores.
  induction core_configs as [|[c x] rest IH]; intros w; [reflexivity|].
  destruct (Hopen w) as (w' & rows & Ho).
  assert (Htr := index_data_trace E self c x csv_file rows w w' Ho).
  destruct (index_data_returns E self c x csv_file w) as [s Hs].
  cbn [for_each]. unfold bind.
  destruct (Optimized.index_data E self c x csv_file w) as [w1 tr v].
  cbn [value final trace] in *. subst tr v. cbn [value final trace ret].
  rewrite !filter_app, !length_app, IH. reflexivity.
Qed.

Lemma one_batch_per_entry_witness :
  length (filter is_add
            (trace (Optimized.index_data_to_cores Sample.rejecting
                      baseline_client
                      [("Hash_YourName", "Department");
                       ("Hash_1234", "Department")]
                      "employee_data.csv" [])))
  = 2%nat.
Proof.
  apply (one_batch_per_entry (list string) Sample.rejecting baseline_client
           "employee_data.csv"
           [("Hash_YourName", "Department"); ("Hash_1234", "Department")]
           (fun w => ex_intro _ w (ex_intro _ Sample.employees eq_refl)) []).
Defined.

(** ** Create core against a failing or a populated server *)

(** X21: when the core is reported absent and the CREATE request is
    answered with an error status (400 to 599), create core does not raise:
    it returns the failure string that ends with the text of the HTTP
    error, and the state is the server's state after the request. *)
Theorem create_answered_with_error_status :
  forall (S : Type) (E : Env S) (self : Optimized.SolrClient)
         (core_name : string) (w w1 w2 : S) (r : response),
    answers_status E (Optimized.base_url self) core_name w w1 false ->
    requests_get E (Optimized.base_url self ++ "/admin/cores")
      (create_params core_name) w1 = (w2, inr r) ->
    error_status r = true ->
    exists msg,
      raise_for_status r = Raise (RequestException msg (Some r)) /\
      Optimized.create_core E self core_name w
      = mkOutcome w2
          [EvGet (status_url (Optimized.base_url self) core_name) [];
           EvGet (Optimized.base_url self ++ "/admin/cores")
             (create_params core_name)]
          (Return ("Failed to create core " ++ core_name ++ ". Error: "
                     ++ msg)).
Proof.
  intros S E self core_name w w1 w2 r Hs Hget Herr.
  destruct (raise_for_status_error r Herr) as [msg Hst].
  exists msg. split; [exact Hst|].
  unfold Optimized.create_core. unfold bind at 1.
  rewrite (check_core_exists_answered E self _ _ _ _ Hs).
  py_run. py_step Hget. py_step Hst. reflexivity.
Qed.

Lemma create_answered_with_error_status_witness :
  exists msg,
    raise_for_status
      (mkResponse 500 "Server Error" (Baseline.SOLR_URL ++ "/admin/cores")
         "{error}" (JsonOk (JObj [])))
    = Raise (RequestException msg
               (Some (mkResponse 500 "Server Error"
                        (Baseline.SOLR_URL ++ "/admin/cores") "{error}"
                        (JsonOk (JObj []))))) /\
    Optimized.create_core
      (mkEnv (list string)
         (fun u params cores =>
            match lookup "name" params with
            | Some _ =>
                (cores, inr (mkResponse 500 "Server Error" u "{error}"
                               (JsonOk (JObj []))))
            | None => Sample.admin u params cores
            end)
         (Sample.files Sample.employees)
         (fun _ _ cores => (cores, None))
         (fun _ _ _ cores => (cores, inr Sample.found))
         (fun _ _ cores => (cores, None))
         (fun _ => None) Sample.ascii_upper)
      baseline_client "Hash_1234" []
    = mkOutcome []
        [EvGet (status_url (Optimized.base_url baseline_client) "Hash_1234")
           [];
         EvGet (Optimized.base_url baseline_client ++ "/admin/cores")
           (create_params "Hash_1234")]
        (Return ("Failed to create core " ++ "Hash_1234" ++ ". Error: "
                   ++ msg)).
Proof.
  apply (create_answered_with_error_status (list string) _ baseline_client
           "Hash_1234" [] [] []).
  - exists (Sample.ok_response (status_url Baseline.SOLR_URL "Hash_1234")
              (Sample.status_body [])).
    eexists. eexists. repeat split.
  - reflexivity.
  - reflexivity.
Defined.

(** X22: from a state in which the server reports every listed core
    present (a status request leaves the state as it is), the setup step of
    the driver creates nothing: it issues one status request for each name,
    in the order of the list, and no CREATE request, and returns. *)
Theorem setup_of_present_cores_creates_nothing :
  forall (S : Type) (E : Env S) (self : Optimized.SolrClient)
         (core_names : list string) (w : S),
    (forall core_name, In core_name core_names ->
        answers_status E (Optimized.base_url self) core_name w w true) ->
    Optimized.setup_cores E self core_names w
    = mkOutcome w
        (map (fun core_name =>
                EvGet (status_url (Optimized.base_url self) core_name) [])
           core_names)
        (Return tt).
Proof.
  intros S E self core_names w. unfold Optimized.setup_cores.
  induction core_names as [|c rest IH]; intros Hpresent; [reflexivity|].
  assert (bind (Optimized.create_core E self c) (fun _ => ret tt) w
          = mkOutcome w [EvGet (status_url (Optimized.base_url self) c) []]
              (Return tt)) as Hstep.
  { unfold bind.
    rewrite (create_core_present E self c w w
               (Hpresent c (or_introl eq_refl))).
    reflexivity. }
  cbn [for_each map].
  rewrite (bind_outcome
             (bind (Optimized.create_core E self c) (fun _ => ret tt)) _ w tt)
    by (rewrite Hstep; reflexivity).
  rewrite Hstep. cbn [value final trace].
  rewrite IH; [reflexivity|].
  intros c0 Hc0. apply Hpresent. right. exact Hc0.
Qed.

Lemma setup_of_present_cores_creates_nothing_witness :
  Optimized.setup_cores (Sample.server Sample.employees) baseline_client
    ["Hash_YourName"; "Hash_1234"] ["Hash_1234"; "Hash_YourName"]
  = mkOutcome ["Hash_1234"; "Hash_YourName"]
      (map (fun core_name =>
              EvGet (status_url (Optimized.base_url baseline_client)
                       core_name) [])
         ["Hash_YourName"; "Hash_1234"])
      (Return tt).
Proof.
  apply (setup_of_present_cores_creates_nothing (list string)
           (Sample.server Sample.employees) baseline_client
           ["Hash_YourName"; "Hash_1234"] ["Hash_1234"; "Hash_YourName"]).
  intros c [<-|[<-|[]]].
  - apply (sample_answers_status Sample.employees "Hash_YourName"
             ["Hash_1234"; "Hash_YourName"]).
  - apply (sample_answers_status Sample.employees "Hash_1234"
             ["Hash_1234"; "Hash_YourName"]).
Defined.
